(** * DNA fingerprinting simulation: digestion engine, generator, renderer, handler

    A shallow embedding of [backend/app.py].  Python [str] values are lists of
    characters, the [ENZYMES] dict is an association list in insertion order,
    [set(...)] is a [gset], the static directory is a [gmap] from file names
    to images, and the request handler runs in a small state-and-exception
    monad over the world it can observe (random source, clock, directory). *)

From Stdlib Require Import Ascii String ZArith QArith Decimal DecimalString.
From stdpp Require Import base decidable option list sorting gmap strings.

Local Open Scope nat_scope.

(** ** Python strings *)

Abbreviation str := (list ascii).

Definition py (s : string) : str := String.list_ascii_of_string s.

(** [sep.join(parts)] *)
Fixpoint join (sep : str) (parts : list str) : str :=
  match parts with
  | [] => []
  | [p] => p
  | p :: rest => p ++ sep ++ join sep rest
  end.

(** [s.startswith(prefix, i)] for [0 <= i]: does [prefix] sit at offset [i]? *)
Definition startswith (s prefix : str) (i : nat) : bool :=
  bool_decide (prefix `prefix_of` drop i s).

(** [s[i:j]] for non-negative [i]; [j = None] is the open end [s[i:]]. *)
Definition slice (s : str) (i : nat) (j : option nat) : str :=
  match j with
  | Some j => take (j - i) (drop i s)
  | None => drop i s
  end.

(** [str(n)] for a non-negative integer. *)
Definition str_of_nat (n : nat) : str :=
  py (NilEmpty.string_of_uint (Nat.to_uint n)).

(** ** Configuration *)

Definition ENZYMES : list (str * str) :=
  [ (py "EcoRI", py "GAATTC");
    (py "HindIII", py "AAGCTT");
    (py "BamHI", py "GGATCC");
    (py "PstI", py "CTGCAG") ].

Definition DNA_LADDER : list Z := [1000; 500; 200; 100; 50]%Z.

(** [d[key]], [None] standing for [KeyError]. *)
Fixpoint dict_lookup (d : list (str * str)) (key : str) : option str :=
  match d with
  | [] => None
  | (k, v) :: d' => if decide (k = key) then Some v else dict_lookup d' key
  end.

(** [d.get(key, dflt)] *)
Definition dict_get (d : list (str * str)) (key dflt : str) : str :=
  default dflt (dict_lookup d key).

(** [list(d.keys())] *)
Definition dict_keys (d : list (str * str)) : list str := fst <$> d.

(** [key in d] *)
Definition dict_mem (d : list (str * str)) (key : str) : bool :=
  bool_decide (key ∈ dict_keys d).

(** ** The built-in [sorted]

    [sorted(xs, key=k, reverse=r)] is a stable sort.  Any two stable sorts
    agree on every input, so insertion sort stands for Timsort.  With
    [reverse=True] CPython reverses the list, sorts it stably in ascending
    order and reverses the result. *)

Section Sorted.
Context {A : Type} (key : A → nat).

Fixpoint insort (x : A) (l : list A) : list A :=
  match l with
  | [] => [x]
  | y :: l' => if decide (key x ≤ key y) then x :: l else y :: insort x l'
  end.

Fixpoint stable_sort (l : list A) : list A :=
  match l with
  | [] => []
  | x :: l' => insort x (stable_sort l')
  end.

Definition sorted (rev : bool) (l : list A) : list A :=
  if rev then reverse (stable_sort (reverse l)) else stable_sort l.

End Sorted.

(** ** Digestion engine: [cut_dna] *)

(** The [enzymes] argument is a bare name or a list of names. *)
Inductive enzyme_arg :=
  | One (name : str)
  | Many (names : list str).

(** [[enzymes] if isinstance(enzymes, str) else enzymes] *)
Definition as_list (enzymes : enzyme_arg) : list str :=
  match enzymes with
  | One name => [name]
  | Many names => names
  end.

(** [[i + len(enzyme_seq) for i in range(len(sequence))
      if sequence.startswith(enzyme_seq, i)]] *)
Definition site_cuts (sequence enzyme_seq : str) : list nat :=
  (λ i, i + length enzyme_seq) <$>
    filter (λ i, startswith sequence enzyme_seq i = true) (seq 0 (length sequence)).

(** One turn of the [for enzyme in enzymes] loop. *)
Definition extend_cuts (sequence : str) (cut_positions : list nat) (enzyme : str)
    : list nat :=
  let enzyme_seq := dict_get ENZYMES enzyme [] in
  if decide (enzyme_seq = []) then cut_positions
  else cut_positions ++ site_cuts sequence enzyme_seq.

(** The list [cut_positions] when the loop ends (duplicates still inside). *)
Definition raw_cut_positions (sequence : str) (enzymes : enzyme_arg) : list nat :=
  foldl (extend_cuts sequence) [] (as_list enzymes).

(** [sorted(list(set(cut_positions)))] *)
Definition cut_positions (sequence : str) (enzymes : enzyme_arg) : list nat :=
  sorted id false
    (elements (list_to_set (raw_cut_positions sequence enzymes) : gset nat)).

(** [zip([0] + cut_positions, cut_positions + [None])] *)
Definition boundaries (cuts : list nat) : list (nat * option nat) :=
  zip (0 :: cuts) ((Some <$> cuts) ++ [None]).

(** The comprehension at lines 60-64: the non-empty slices, in boundary
    order. *)
Definition fragments_of (sequence : str) (cuts : list nat) : list str :=
  filter (λ f, f ≠ []) ((λ ij, slice sequence ij.1 ij.2) <$> boundaries cuts).

Definition fragments_in_order (sequence : str) (enzymes : enzyme_arg) : list str :=
  fragments_of sequence (cut_positions sequence enzymes).

Definition cut_dna (sequence : str) (enzymes : enzyme_arg) : list str :=
  sorted length true (fragments_in_order sequence enzymes).

(** ** The world the program runs in

    Random draws come from an arbitrary tape, one entry per call of the
    [random] module; the clock is the local time [datetime.now()] reads; the
    static directory maps file names to the images written there.  [calls]
    is a ghost log of the components the handler has entered. *)

Inductive Font := FONT_HERSHEY_SIMPLEX.

(** The calls made on a canvas, in order: [cv2] draws in place and clips to
    the array, so the array keeps the shape it was created with. *)
Inductive DrawOp :=
  | Rectangle (pt1 pt2 : Z * Z) (color : Z * Z * Z) (thickness : Z)
  | PutText (text : str) (org : Z * Z) (font : Font) (fontScale : Q)
            (color : Z * Z * Z) (thickness : Z).

Record Image := mkImage {
  rows : nat;
  cols : nat;
  channels : nat;
  fill : Z;
  drawn : list DrawOp
}.

Record DateTime := mkDateTime {
  year : nat; month : nat; day : nat;
  hour : nat; minute : nat; second : nat
}.

Inductive Call :=
  | CallGenerate (length : Z)
  | CallCut (sequence : str) (enzymes : list str)
  | CallRender (fragments enzymes : list str).

Record World := mkWorld {
  tape : nat → N;
  cursor : nat;
  clock : DateTime;
  static_dir : gmap str Image;
  calls : list Call
}.

(** The exceptions the program can end in; [cv2_error] is [cv2.error]. *)
Inductive exn := ZeroDivisionError | IndexError | KeyError | cv2_error.

Inductive outcome (A : Type) :=
  | Returns (a : A)
  | Raises (e : exn).
Arguments Returns {A} a.
Arguments Raises {A} e.

Global Instance outcome_ret : MRet outcome := λ A a, Returns a.
Global Instance outcome_bind : MBind outcome := λ A B f o,
  match o with
  | Returns a => f a
  | Raises e => Raises e
  end.

(** State passing with exceptions; the effects made before a [raise] stay. *)
Definition M (A : Type) : Type := World → outcome A * World.

Global Instance M_ret : MRet M := λ A a w, (Returns a, w).
Global Instance M_bind : MBind M := λ A B f m w,
  match m w with
  | (Returns a, w') => f a w'
  | (Raises e, w') => (Raises e, w')
  end.

Definition raise {A} (e : exn) : M A := λ w, (Raises e, w).

Definition lift {A} (o : outcome A) : M A := λ w, (o, w).

Definition log (c : Call) : M unit := λ w,
  (Returns (), mkWorld (tape w) (cursor w) (clock w) (static_dir w) (calls w ++ [c])).

(** ** The [random] module *)

Definition draw : M N := λ w,
  (Returns (tape w (cursor w)),
   mkWorld (tape w) (S (cursor w)) (clock w) (static_dir w) (calls w)).

(** [random.random() < 0.15].  [random()] is [k / 2^53] for a 53-bit [k] and
    the double [0.15] is [5404319552844595 / 2^55]. *)
Definition random_lt_015 : M bool :=
  k ← draw;
  mret (bool_decide (4 * (k mod 2 ^ 53) < 5404319552844595)%N).

(** [random.choice(seq)] *)
Definition choice {A} (l : list A) : M A :=
  match l with
  | [] => raise IndexError
  | _ =>
    k ← draw;
    match l !! (N.to_nat k mod length l) with
    | Some x => mret x
    | None => raise IndexError
    end
  end.

(** ** Sequence generator: [generate_dna_sequence] *)

Definition bases : list str := [py "A"; py "T"; py "G"; py "C"].

(** The element the generator expression yields on one turn. *)
Definition generate_piece : M str :=
  site ← random_lt_015;
  if (site : bool) then
    name ← choice (dict_keys ENZYMES);
    match dict_lookup ENZYMES name with
    | Some enzyme_seq => c ← choice enzyme_seq; mret [c]
    | None => raise KeyError
    end
  else choice bases.

(** The pieces for [range(n)]. *)
Fixpoint generate_pieces (n : nat) : M (list str) :=
  match n with
  | 0 => mret []
  | S n' => p ← generate_piece; ps ← generate_pieces n'; mret (p :: ps)
  end.

Definition generate_dna_sequence (length : Z) : M str :=
  ps ← generate_pieces (Z.to_nat length);
  mret (join [] ps).

(** ** Gel renderer: [generate_gel_image] *)

(** [np.ones(shape, dtype=np.uint8) * v] *)
Definition np_full (shape : nat * nat * nat) (v : Z) : Image :=
  mkImage shape.1.1 shape.1.2 shape.2 v [].

Definition paint (img : Image) (op : DrawOp) : Image :=
  mkImage (rows img) (cols img) (channels img) (fill img) (drawn img ++ [op]).

(** The binding converts a point to a [cv::Point], two C [int]s, and refuses
    a Python integer outside their range. *)
Definition INT_MAX : Z := 2147483647.
Definition INT_MIN : Z := -2147483648.

Definition fits_int (z : Z) : bool := bool_decide (INT_MIN ≤ z ≤ INT_MAX)%Z.

Definition fits_point (pt : Z * Z) : bool := fits_int pt.1 && fits_int pt.2.

Definition cv2_rectangle (img : Image) (pt1 pt2 : Z * Z) (color : Z * Z * Z)
    (thickness : Z) : outcome Image :=
  if fits_point pt1 && fits_point pt2
  then Returns (paint img (Rectangle pt1 pt2 color thickness))
  else Raises cv2_error.

Definition cv2_putText (img : Image) (text : str) (org : Z * Z) (font : Font)
    (fontScale : Q) (color : Z * Z * Z) (thickness : Z) : outcome Image :=
  if fits_point org
  then Returns (paint img (PutText text org font fontScale color thickness))
  else Raises cv2_error.

(** [str(z)] for an integer. *)
Definition str_of_Z (z : Z) : str :=
  py (NilEmpty.string_of_int (Z.to_int z)).

(** [s.zfill(w)] on the digits of a non-negative number, as the [%m], [%d],
    ... fields of [strftime] print them. *)
Definition zfill (w : nat) (s : str) : str :=
  replicate (w - length s) "0"%char ++ s.

(** [now.strftime('%Y%m%d%H%M%S')]; the C library prints [%Y] without
    padding and the other fields on two digits. *)
Definition strftime (now : DateTime) : str :=
  str_of_nat (year now) ++ zfill 2 (str_of_nat (month now)) ++
  zfill 2 (str_of_nat (day now)) ++ zfill 2 (str_of_nat (hour now)) ++
  zfill 2 (str_of_nat (minute now)) ++ zfill 2 (str_of_nat (second now)).

Local Open Scope Z_scope.

(** Lines 69-76: the white canvas, the gel and the two wells. *)
Definition gel_frame : outcome Image :=
  let img := np_full (400, 600, 3)%nat 255 in
  img ← cv2_rectangle img (50, 50) (550, 350) (240, 240, 240) (-1);
  img ← cv2_rectangle img (80, 70) (120, 90) (200, 200, 200) (-1);
  cv2_rectangle img (480, 70) (520, 90) (200, 200, 200) (-1).

(** [max(5, int(30 * (len(frag)/max_len)))] for a non-zero [max_len], and the
    row [100 + i * 40] of the band at index [i]. *)
Definition band_height (max_len : nat) (frag : str) : Z :=
  Z.max 5 (30 * Z.of_nat (length frag) / Z.of_nat max_len).

Definition band_row (i : nat) : Z := 100 + Z.of_nat i * 40.

(** The loop over [enumerate(fragments)], entered at index [i].  The quotient
    [len(frag)/max_len] raises on a zero divisor; [int(30 * q)] is taken in
    exact arithmetic (the double rounding of [q] does not move it across an
    integer for any length below 10^14). *)
Fixpoint draw_bands (max_len : nat) (i : nat) (fragments : list str)
    (img : Image) : outcome Image :=
  match fragments with
  | [] => Returns img
  | frag :: rest =>
    if decide (max_len = 0%nat) then Raises ZeroDivisionError
    else
      let band_height := band_height max_len frag in
      let y_pos := band_row i in
      img ← cv2_rectangle img (150, y_pos) (300, y_pos + band_height)
              (0, 0, 150) (-1);
      img ← cv2_putText img (str_of_nat (length frag) ++ py "bp")
              (310, y_pos + band_height / 2)
              FONT_HERSHEY_SIMPLEX 0.5 (0, 0, 200) 1;
      draw_bands max_len (S i) rest img
  end.

(** Lines 79-87: the bands, when there is a fragment. *)
Definition experimental_lane (fragments : list str) (img : Image)
    : outcome Image :=
  match fragments with
  | [] => Returns img
  | _ => draw_bands (max_list (length <$> fragments)) 0 fragments img
  end.

(** The row [100 + i * 50] of the ladder band at index [i]. *)
Definition ladder_row (i : nat) : Z := 100 + Z.of_nat i * 50.

(** The loop over [enumerate(ladder)], entered at index [i]. *)
Fixpoint draw_ladder (i : nat) (ladder : list Z) (img : Image)
    : outcome Image :=
  match ladder with
  | [] => Returns img
  | size :: rest =>
    let y_pos := ladder_row i in
    img ← cv2_rectangle img (400, y_pos) (450, y_pos + 10) (0, 0, 0) (-1);
    img ← cv2_putText img (str_of_Z size ++ py "bp") (460, y_pos + 5)
            FONT_HERSHEY_SIMPLEX 0.5 (0, 0, 0) 1;
    draw_ladder (S i) rest img
  end.

(** Lines 97-100: the two lane labels. *)
Definition lane_labels (enzymes : list str) (img : Image) : outcome Image :=
  img ← cv2_putText img (join (py "+") enzymes ++ py " Digest") (150, 380)
          FONT_HERSHEY_SIMPLEX 0.7 (0, 0, 0) 2;
  cv2_putText img (py "DNA Ladder") (400, 380)
    FONT_HERSHEY_SIMPLEX 0.7 (0, 0, 0) 2.

(** [datetime.now()] *)
Definition datetime_now : M DateTime := λ w, (Returns (clock w), w).

(** [cv2.imwrite(os.path.join(STATIC_DIR, filename), img)] *)
Definition cv2_imwrite (filename : str) (img : Image) : M unit := λ w,
  (Returns (),
   mkWorld (tape w) (cursor w) (clock w) (<[filename := img]> (static_dir w))
           (calls w)).

(** The canvas as it is handed to [cv2.imwrite]. *)
Definition gel_canvas (fragments enzymes : list str) (ladder : list Z)
    : outcome Image :=
  img ← gel_frame;
  img ← experimental_lane fragments img;
  img ← draw_ladder 0 ladder img;
  lane_labels enzymes img.

Definition generate_gel_image (fragments enzymes : list str) (ladder : list Z)
    : M str :=
  img ← lift (gel_canvas fragments enzymes ladder);
  now ← datetime_now;
  let filename := py "gel_" ++ strftime now ++ py ".png" in
  cv2_imwrite filename img;;
  mret filename.

Local Close Scope Z_scope.

(** ** Request handler: [simulate_fingerprint] *)

Record Request := mkRequest {
  body_dna_sequence : option str;
  body_enzyme : option enzyme_arg;
  body_length : option Z
}.

Record Payload := mkPayload {
  dna_sequence : str;
  fragments : list str;
  gel_image : str;
  enzyme_used : list str;
  ladder_sizes : list Z
}.

(** [jsonify(body)] with the default status 200, or [jsonify({"error": msg}),
    status]. *)
Inductive Response :=
  | Json200 (body : Payload)
  | JsonError (status : nat) (error : str).

(** [c.upper()] on the ASCII letters. *)
Definition upper_char (c : ascii) : ascii :=
  let n := nat_of_ascii c in
  if decide (97 ≤ n ≤ 122) then ascii_of_nat (n - 32) else c.

Definition upper (s : str) : str := upper_char <$> s.

(** [s.replace(" ", "")] *)
Definition strip_spaces (s : str) : str := filter (λ c, c ≠ " "%char) s.

(** [data.get('dna_sequence', '').upper().replace(" ", "")] *)
Definition normalized_sequence (data : Request) : str :=
  strip_spaces (upper (default [] (body_dna_sequence data))).

(** [all(c in 'ATGC' for c in s)] *)
Definition all_ATGC (s : str) : bool :=
  forallb (λ c, bool_decide (c ∈ py "ATGC")) s.

(** [[e for e in enzymes if e not in ENZYMES]] *)
Definition invalid_enzymes (enzymes : list str) : list str :=
  filter (λ e, dict_mem ENZYMES e = false) enzymes.

Definition InvalidSequence : Response :=
  JsonError 400 (py "Invalid DNA sequence (only A, T, G, C allowed)").

Definition InvalidEnzyme (names : list str) : Response :=
  JsonError 400 (py "Invalid enzymes: " ++ join (py ", ") names).

(** Lines 120-136: enzyme validation, digestion, rendering. *)
Definition digest_and_render (dna_sequence : str) (enzyme_input : enzyme_arg)
    : M Response :=
  let enzymes := as_list enzyme_input in
  let invalid := invalid_enzymes enzymes in
  match invalid with
  | _ :: _ => mret (InvalidEnzyme invalid)
  | [] =>
    log (CallCut dna_sequence enzymes);;
    let fragments := cut_dna dna_sequence (Many enzymes) in
    log (CallRender fragments enzymes);;
    gel_image ← generate_gel_image fragments enzymes DNA_LADDER;
    mret (Json200 (mkPayload dna_sequence fragments gel_image enzymes DNA_LADDER))
  end.

Definition simulate_fingerprint (data : Request) : M Response :=
  let dna_sequence := normalized_sequence data in
  let enzyme_input := default (One (py "EcoRI")) (body_enzyme data) in
  let sequence_length := default 100%Z (body_length data) in
  if decide (dna_sequence = []) then
    log (CallGenerate sequence_length);;
    dna_sequence ← generate_dna_sequence sequence_length;
    digest_and_render dna_sequence enzyme_input
  else if all_ATGC dna_sequence then
    digest_and_render dna_sequence enzyme_input
  else mret InvalidSequence.

(** [r in s] for strings: [r] occurs in [s] as a contiguous run. *)
Definition occurs_in (r s : str) : Prop := ∃ pre post, s = pre ++ r ++ post.

(** A world to run examples in: all draws 0, an empty static directory. *)
Definition quiet_world : World :=
  mkWorld (λ _, 0%N) 0 (mkDateTime 2024 1 2 3 4 5) ∅ [].

(** [img.shape] *)
Definition shape (img : Image) : nat * nat * nat :=
  (rows img, cols img, channels img).

(** The world after some draws: only the tape cursor has moved. *)
Definition with_cursor (w : World) (k : nat) : World :=
  mkWorld (tape w) k (clock w) (static_dir w) (calls w).

(** Does a logged call enter the digestion engine or the renderer? *)
Definition enters_engine_or_renderer (c : Call) : bool :=
  match c with
  | CallGenerate _ => false
  | CallCut _ _ | CallRender _ _ => true
  end.

(** ** The two other routes *)

Record EnzymeEntry := mkEnzymeEntry {
  entry_name : str;
  entry_sequence : str
}.

Record EnzymeListing := mkEnzymeListing {
  listed : list EnzymeEntry;
  listed_default : str
}.

(** [GET /enzymes]: the items of the table, in its order, and the default. *)
Definition get_enzymes : EnzymeListing :=
  mkEnzymeListing ((λ item, mkEnzymeEntry item.1 item.2) <$> ENZYMES) (py "EcoRI").

Inductive FileResponse :=
  | FileFound (img : Image)
  | NotFound404.

(** [GET /static/<filename>]: [send_from_directory] answers with the file
    of that name in the static directory, or with 404 when there is none. *)
Definition serve_gel_image (filename : str) : M FileResponse := λ w,
  (Returns match static_dir w !! filename with
           | Some img => FileFound img
           | None => NotFound404
           end, w).

(** Lines 111 and 121: the enzyme list the handler validates and uses. *)
Definition requested_enzymes (data : Request) : list str :=
  as_list (default (One (py "EcoRI")) (body_enzyme data)).

(** Does a request get past the sequence check of lines 115-118?  An empty
    sequence is replaced by a generated one and is not checked. *)
Definition sequence_accepted (data : Request) : Prop :=
  all_ATGC (normalized_sequence data) = true.

(** Requests used in the examples below. *)
Definition two_unknown_enzymes : Request :=
  mkRequest (Some (py "ATGT")) (Some (Many [py "Foo"; py "EcoRI"; py "Bar"])) None.

Definition two_known_enzymes : Request :=
  mkRequest (Some (py "gga tccagaattcaagcttt"))
            (Some (Many [py "EcoRI"; py "BamHI"])) None.

Definition bad_sequence_unknown_enzyme : Request :=
  mkRequest (Some (py "AXGT")) (Some (One (py "Foo"))) None.

Definition bad_sequence_no_enzyme : Request :=
  mkRequest (Some (py "AXGT")) None None.

Definition no_enzyme_field : Request :=
  mkRequest (Some (py "AAGAATTCGG")) None None.

(** A list of 53,687,089 fragments, and a posted sequence of 53,687,090
    EcoRI sites. *)
Definition too_many_fragments : list str :=
  replicate (Z.to_nat 53687089) (py "GAATTC").

Definition long_digest_request : Request :=
  mkRequest (Some (concat (replicate (Z.to_nat 53687090) (py "GAATTC"))))
            None None.

Definition generated_unknown_enzyme : Request :=
  mkRequest None (Some (One (py "Foo"))) (Some 2%Z).

(** * Properties *)

(** The spec's worked example. *)
Example cut_dna_example :
  cut_dna (py "AAGAATTCGG") (Many [py "EcoRI"]) = [py "AAGAATTC"; py "GG"].
Proof. vm_compute. reflexivity. Qed.

Example cut_dna_two_enzymes :
  cut_dna (py "GGATCCAGAATTCAAGCTTT") (Many [py "EcoRI"; py "BamHI"])
  = [py "AGAATTC"; py "AAGCTTT"; py "GGATCC"].
Proof. vm_compute. reflexivity. Qed.


(** ** The built-in [sorted] *)

Section SortedFacts.
Context {A : Type} (key : A → nat).

Lemma insort_Permutation x l : insort key x l ≡ₚ x :: l.
Proof.
  induction l as [|y l IH]; simpl; [done|].
  case_decide; [done|].
  rewrite IH. apply perm_swap.
Qed.

Lemma stable_sort_Permutation l : stable_sort key l ≡ₚ l.
Proof.
  induction l as [|x l IH]; simpl; [done|].
  by rewrite insort_Permutation, IH.
Qed.

Lemma sorted_Permutation rev l : sorted key rev l ≡ₚ l.
Proof.
  destruct rev; simpl.
  - by rewrite reverse_Permutation, stable_sort_Permutation, reverse_Permutation.
  - apply stable_sort_Permutation.
Qed.

Lemma insort_ascending x l :
  StronglySorted (λ a b, key a ≤ key b) l →
  StronglySorted (λ a b, key a ≤ key b) (insort key x l).
Proof.
  induction 1 as [|y l Hl IH Hy]; simpl.
  - repeat constructor.
  - case_decide as Hxy.
    + constructor; [by constructor|].
      constructor; [done|].
      eapply Forall_impl; [exact Hy|]. intros z Hz; simpl in *. lia.
    + constructor; [done|].
      rewrite insort_Permutation. constructor; [lia|done].
Qed.

Lemma stable_sort_ascending l :
  StronglySorted (λ a b, key a ≤ key b) (stable_sort key l).
Proof.
  induction l; simpl; [constructor|by apply insort_ascending].
Qed.

(** Stability: the elements of any one key come out in the order they went
    in. *)
Lemma insort_stable k x l :
  filter (λ y, key y = k) (insort key x l) = filter (λ y, key y = k) (x :: l).
Proof.
  induction l as [|y l IH]; simpl; [done|].
  case_decide as Hxy; [done|].
  rewrite (filter_cons _ y), IH, !filter_cons.
  repeat case_decide; try done; lia.
Qed.

Lemma stable_sort_stable k l :
  filter (λ y, key y = k) (stable_sort key l) = filter (λ y, key y = k) l.
Proof.
  induction l as [|x l IH]; simpl; [done|].
  by rewrite insort_stable, !filter_cons, IH.
Qed.

Lemma sorted_stable k rev l :
  filter (λ y, key y = k) (sorted key rev l) = filter (λ y, key y = k) l.
Proof.
  destruct rev; simpl.
  - by rewrite filter_reverse, stable_sort_stable, filter_reverse,
      reverse_involutive.
  - apply stable_sort_stable.
Qed.

Lemma sorted_descending l :
  StronglySorted (λ a b, key b ≤ key a) (sorted key true l).
Proof.
  simpl.
  apply (@Sorted_StronglySorted _ (λ a b, key b ≤ key a)).
  { intros a b c ??. lia. }
  apply (Sorted_reverse (λ a b, key a ≤ key b)).
  apply StronglySorted_Sorted, stable_sort_ascending.
Qed.

Lemma sorted_ascending l :
  StronglySorted (λ a b, key a ≤ key b) (sorted key false l).
Proof. apply stable_sort_ascending. Qed.

End SortedFacts.

(** ** Slices and boundaries *)

Lemma concat_filter_nonempty (l : list str) :
  concat (filter (λ f, f ≠ []) l) = concat l.
Proof.
  induction l as [|f l IH]; [done|].
  rewrite filter_cons.
  destruct (decide (f ≠ [])) as [Hf|Hf]; simpl; [by f_equal|].
  apply dec_stable in Hf. rewrite Hf. exact IH.
Qed.

(** Consecutive slices between ascending boundaries, entered at [i], spell
    the rest of the sequence from [i] on. *)
Lemma slices_from_concat (s : str) (cuts : list nat) (i : nat) :
  StronglySorted le (i :: cuts) →
  concat ((λ ij, slice s ij.1 ij.2) <$> zip (i :: cuts) ((Some <$> cuts) ++ [None]))
  = drop i s.
Proof.
  revert i. induction cuts as [|c cuts IH]; intros i Hs.
  - simpl. by rewrite app_nil_r.
  - apply StronglySorted_inv in Hs as [Hs Hi].
    apply Forall_cons in Hi as [Hic _].
    change (take (c - i) (drop i s) ++
            concat ((λ ij, slice s ij.1 ij.2) <$>
                    zip (c :: cuts) ((Some <$> cuts) ++ [None])) = drop i s).
    rewrite (IH c Hs).
    replace (drop c s) with (drop (c - i) (drop i s))
      by (rewrite drop_drop; f_equal; lia).
    apply take_drop.
Qed.

Lemma fragments_of_concat (s : str) (cuts : list nat) :
  StronglySorted le cuts → concat (fragments_of s cuts) = s.
Proof.
  intros Hs. unfold fragments_of, boundaries.
  rewrite concat_filter_nonempty, slices_from_concat; [done|].
  constructor; [done|]. apply Forall_forall. lia.
Qed.

Lemma fragments_of_nonempty (s : str) (cuts : list nat) :
  Forall (λ f, f ≠ []) (fragments_of s cuts).
Proof.
  apply Forall_forall. intros f Hf.
  by apply list_elem_of_filter in Hf as [? _].
Qed.

Lemma fragments_of_no_cuts (s : str) :
  fragments_of s [] = if decide (s = []) then [] else [s].
Proof.
  unfold fragments_of, boundaries; simpl.
  rewrite filter_cons, filter_nil. by repeat case_decide.
Qed.

(** ** Cut positions *)

Lemma cut_positions_ascending (s : str) (enzymes : enzyme_arg) :
  StronglySorted le (cut_positions s enzymes).
Proof. apply (sorted_ascending id). Qed.

Lemma elem_of_cut_positions (s : str) (enzymes : enzyme_arg) (p : nat) :
  p ∈ cut_positions s enzymes ↔ p ∈ raw_cut_positions s enzymes.
Proof.
  unfold cut_positions.
  rewrite (sorted_Permutation id), elem_of_elements.
  apply elem_of_list_to_set.
Qed.

Lemma site_cuts_spec (s r : str) (p : nat) :
  p ∈ site_cuts s r ↔
  ∃ i, p = i + length r ∧ i < length s ∧ r `prefix_of` drop i s.
Proof.
  unfold site_cuts, startswith. rewrite list_elem_of_fmap.
  split; intros (i & Hp & Hi); exists i.
  - apply list_elem_of_filter in Hi as [Hpre Hi].
    apply bool_decide_eq_true in Hpre. apply elem_of_seq in Hi.
    repeat split; [done|lia|done].
  - destruct Hi as [Hi Hpre]. split; [done|].
    apply list_elem_of_filter. split; [by apply bool_decide_eq_true|].
    apply elem_of_seq. lia.
Qed.

Lemma site_cuts_bounds (s r : str) :
  r ≠ [] → Forall (λ p, 0 < p ≤ length s) (site_cuts s r).
Proof.
  intros Hr. apply Forall_forall. intros p (i & -> & Hi & Hpre)%site_cuts_spec.
  apply prefix_length in Hpre. rewrite length_drop in Hpre.
  destruct r; [done|]. simpl in *. lia.
Qed.

Lemma foldl_extend_cuts_Forall (P : nat → Prop) (s : str) (names : list str)
    (acc : list nat) :
  (∀ r, r ≠ [] → Forall P (site_cuts s r)) →
  Forall P acc → Forall P (foldl (extend_cuts s) acc names).
Proof.
  intros Hsite. revert acc.
  induction names as [|e names IH]; intros acc Hacc; simpl; [done|].
  apply IH. unfold extend_cuts. case_decide; [done|].
  apply Forall_app. split; [done|]. by apply Hsite.
Qed.

Lemma site_cuts_absent (s r : str) : ¬ occurs_in r s → site_cuts s r = [].
Proof.
  intros Hno. destruct (site_cuts s r) as [|p l] eqn:E; [done|].
  assert (p ∈ site_cuts s r) as (i & _ & _ & [post Hpost])%site_cuts_spec
    by (rewrite E; left).
  destruct Hno. exists (take i s), post.
  by rewrite <- Hpost, take_drop.
Qed.

Lemma raw_cut_positions_empty_sequence (enzymes : enzyme_arg) :
  raw_cut_positions [] enzymes = [].
Proof.
  unfold raw_cut_positions.
  assert (∀ names, foldl (extend_cuts []) [] names = []) as H; [|apply H].
  induction names as [|e names IH]; simpl; [done|].
  unfold extend_cuts at 2. by case_decide.
Qed.

Lemma cut_positions_of_no_raw (s : str) (enzymes : enzyme_arg) :
  raw_cut_positions s enzymes = [] → cut_positions s enzymes = [].
Proof.
  intros H. unfold cut_positions. rewrite H. simpl.
  by rewrite elements_empty.
Qed.

(** ** Digestion engine *)

(** C1: for every sequence and every list of enzyme names, the fragments of
    [cut_dna] taken in ascending boundary order, before the final sort by
    length, concatenate to the sequence. *)
Theorem cut_fragments_reconstruct (S : str) (E : list str) :
  concat (fragments_in_order S (Many E)) = S.
Proof. apply fragments_of_concat, cut_positions_ascending. Qed.

(** The sorted result holds the same fragments, so it has the same letters
    in total. *)
Lemma cut_dna_Permutation (S : str) (E : enzyme_arg) :
  cut_dna S E ≡ₚ fragments_in_order S E.
Proof. apply sorted_Permutation. Qed.

Lemma cut_dna_nonempty_fragments (S : str) (E : enzyme_arg) :
  Forall (λ f, f ≠ []) (cut_dna S E).
Proof. rewrite cut_dna_Permutation. apply fragments_of_nonempty. Qed.

(** C2, as the code has it: every offset of the deduplicated cut-position
    list is positive and at most the length of the sequence; a site that ends
    the sequence cuts at the length itself. *)
Theorem cut_positions_bounds (S : str) (E : list str) :
  Forall (λ p, 0 < p ≤ length S) (cut_positions S (Many E)).
Proof.
  apply Forall_forall. intros p Hp%elem_of_cut_positions.
  revert p Hp. apply Forall_forall.
  apply foldl_extend_cuts_Forall; [apply site_cuts_bounds|constructor].
Qed.

(** C2 fails as stated: EcoRI on "GAATTC" cuts at offset 6, the length of
    the sequence. *)
Lemma cut_position_at_end :
  ¬ Forall (λ p, 0 < p < length (py "GAATTC"))
      (cut_positions (py "GAATTC") (Many [py "EcoRI"])).
Proof.
  assert (cut_positions (py "GAATTC") (Many [py "EcoRI"]) = [6]) as ->
    by (vm_compute; reflexivity).
  intros [H _]%Forall_cons. simpl in H. lia.
Qed.

(** C4, as the code has it: on a non-empty sequence, an enzyme whose
    recognition sequence does not occur in it (or that has none) leaves the
    sequence as the only fragment. *)
Theorem cut_without_site (S : str) (e : str) :
  S ≠ [] →
  (∀ r, dict_lookup ENZYMES e = Some r → ¬ occurs_in r S) →
  cut_dna S (Many [e]) = [S].
Proof.
  intros HS Hno.
  assert (raw_cut_positions S (Many [e]) = []) as Hraw.
  { change (extend_cuts S [] e = []). unfold extend_cuts, dict_get.
    destruct (dict_lookup ENZYMES e) as [r|] eqn:Hl; cbn [default];
      case_decide; try done.
    by apply site_cuts_absent, Hno. }
  unfold cut_dna, fragments_in_order.
  rewrite (cut_positions_of_no_raw _ _ Hraw), fragments_of_no_cuts.
  by case_decide.
Qed.

Lemma cut_without_site_witness :
  cut_dna (py "AATT") (Many [py "EcoRI"]) = [py "AATT"].
Proof.
  apply (cut_without_site (py "AATT") (py "EcoRI")).
  - discriminate.
  - intros r Hr.
    assert (Some r = Some (py "GAATTC")) as [= ->]
      by (rewrite <- Hr; vm_compute; reflexivity).
    intros (pre & post & H).
    apply (f_equal length) in H. rewrite !length_app in H.
    change (4 = length pre + (6 + length post)) in H. lia.
Defined.

(** C4 fails as stated on the empty sequence: "GAATTC" does not occur in it,
    yet no fragment comes back. *)
Lemma cut_without_site_empty_sequence :
  ¬ occurs_in (py "GAATTC") [] ∧
  dict_lookup ENZYMES (py "EcoRI") = Some (py "GAATTC") ∧
  cut_dna [] (Many [py "EcoRI"]) ≠ [[]].
Proof.
  split; [|split].
  - intros (pre & post & H). by destruct pre.
  - reflexivity.
  - vm_compute. discriminate.
Qed.

(** C5: the list [cut_dna] returns is sorted by length, longest first, and
    the fragments of any one length keep the order they have among the
    ascending boundaries. *)
Theorem cut_dna_sorted_stable (S : str) (E : list str) :
  StronglySorted (λ a b, length b ≤ length a) (cut_dna S (Many E)) ∧
  ∀ k, filter (λ f, length f = k) (cut_dna S (Many E))
       = filter (λ f, length f = k) (fragments_in_order S (Many E)).
Proof.
  split; [apply sorted_descending|].
  intros k. apply sorted_stable.
Qed.

(** C8: on the empty sequence [cut_dna] returns no fragment at all, whatever
    the enzyme names are. *)
Theorem cut_empty_sequence (E : list str) : cut_dna [] (Many E) = [].
Proof.
  unfold cut_dna, fragments_in_order.
  rewrite (cut_positions_of_no_raw _ _ (raw_cut_positions_empty_sequence _)).
  by rewrite fragments_of_no_cuts.
Qed.

(** ** Sequence generator *)

Ltac run := unfold mbind, M_bind, mret, M_ret, raise, lift; cbv beta iota.

Lemma choice_spec {A} (l : list A) (w : World) :
  l ≠ [] →
  ∃ x, x ∈ l ∧ choice l w = (Returns x, with_cursor w (S (cursor w))).
Proof.
  intros Hl. destruct l as [|a l]; [done|].
  unfold choice. run. unfold draw. cbv beta iota.
  set (i := N.to_nat (tape w (cursor w)) mod length (a :: l)).
  assert (i < length (a :: l)) as Hi by (apply Nat.mod_upper_bound; done).
  destruct (lookup_lt_is_Some_2 _ _ Hi) as [x Hx].
  exists x. split; [by eapply list_elem_of_lookup_2|].
  by rewrite Hx.
Qed.

Lemma enzyme_sites_nonempty (name : str) :
  name ∈ dict_keys ENZYMES →
  ∃ enzyme_seq, dict_lookup ENZYMES name = Some enzyme_seq ∧ enzyme_seq ≠ [].
Proof.
  unfold dict_keys, ENZYMES; simpl.
  rewrite !elem_of_cons, elem_of_nil.
  intros [->|[->|[->|[->|[]]]]]; eexists; split;
    try (vm_compute; reflexivity); discriminate.
Qed.

(** Each turn yields exactly one character, whichever branch is drawn. *)
Lemma generate_piece_spec (w : World) :
  ∃ p k, generate_piece w = (Returns p, with_cursor w k) ∧ length p = 1.
Proof.
  unfold generate_piece, random_lt_015. run. unfold draw. cbv beta iota.
  set (w1 := mkWorld _ _ _ _ _).
  destruct (bool_decide _).
  - destruct (choice_spec (dict_keys ENZYMES) w1) as (name & Hname & ->);
      [discriminate|].
    destruct (enzyme_sites_nonempty name Hname) as (site & -> & Hsite).
    run.
    destruct (choice_spec site (with_cursor w1 (S (cursor w1))) Hsite)
      as (c & _ & ->).
    by exists [c], (S (S (S (cursor w)))).
  - destruct (choice_spec bases w1) as (b & Hb & ->); [discriminate|].
    exists b, (S (S (cursor w))). split; [done|].
    unfold bases in Hb. rewrite !elem_of_cons, elem_of_nil in Hb.
    by destruct Hb as [->|[->|[->|[->|[]]]]].
Qed.

Lemma generate_pieces_spec (n : nat) (w : World) :
  ∃ ps k, generate_pieces n w = (Returns ps, with_cursor w k) ∧
          length ps = n ∧ Forall (λ p, length p = 1) ps.
Proof.
  revert w. induction n as [|n IH]; intros w.
  - exists [], (cursor w). by destruct w.
  - simpl. run.
    destruct (generate_piece_spec w) as (p & k & -> & Hp).
    destruct (IH (with_cursor w k)) as (ps & k' & -> & Hn & Hps).
    exists (p :: ps), k'. simpl. repeat split; [by f_equal|by constructor].
Qed.

Lemma join_empty_length (ps : list str) :
  Forall (λ p, length p = 1) ps → length (join [] ps) = length ps.
Proof.
  induction 1 as [|p ps Hp _ IH]; [done|].
  destruct ps as [|q ps]; simpl in *; [done|].
  rewrite length_app. lia.
Qed.

Lemma generate_dna_sequence_runs (n : Z) (w : World) :
  ∃ s k, generate_dna_sequence n w = (Returns s, with_cursor w k) ∧
         length s = Z.to_nat n.
Proof.
  unfold generate_dna_sequence. run.
  destruct (generate_pieces_spec (Z.to_nat n) w) as (ps & k & -> & Hn & Hps).
  exists (join [] ps), k. split; [done|].
  by rewrite join_empty_length.
Qed.

(** C3: the generator always returns, and what it returns has exactly the
    requested number of characters, under every resolution of the random
    draws: a drawn enzyme site contributes one of its characters, never the
    whole site, so no draw makes the result longer than requested.  For one
    requested position, with the draws that take the 15% branch and pick
    EcoRI, the result is the single letter "G", not "GAATTC". *)
Theorem generate_dna_sequence_length :
  (∀ (n : Z) (w : World),
     ∃ s w', generate_dna_sequence n w = (Returns s, w') ∧
             Z.of_nat (length s) = Z.max 0 n) ∧
  (generate_dna_sequence 1 quiet_world).1 = Returns (py "G").
Proof.
  split; [|vm_compute; reflexivity].
  intros n w.
  destruct (generate_dna_sequence_runs n w) as (s & k & Hrun & Hlen).
  exists s, (with_cursor w k). split; [done|]. lia.
Qed.

(** ** Gel renderer *)

Ltac obind := unfold mbind, outcome_bind, mret, outcome_ret; cbv beta iota.

Lemma paint_shape (img : Image) (op : DrawOp) : shape (paint img op) = shape img.
Proof. reflexivity. Qed.

Lemma fits_point_iff (x y : Z) :
  fits_point (x, y) = true ↔
  (INT_MIN ≤ x ≤ INT_MAX)%Z ∧ (INT_MIN ≤ y ≤ INT_MAX)%Z.
Proof.
  unfold fits_point, fits_int. cbn [fst snd].
  by rewrite andb_true_iff, !bool_decide_eq_true.
Qed.

Lemma cv2_rectangle_outcome (img : Image) (pt1 pt2 : Z * Z) (color : Z * Z * Z)
    (thickness : Z) :
  (fits_point pt1 = true ∧ fits_point pt2 = true ∧
   cv2_rectangle img pt1 pt2 color thickness
   = Returns (paint img (Rectangle pt1 pt2 color thickness)))
  ∨ ((fits_point pt1 = false ∨ fits_point pt2 = false) ∧
     cv2_rectangle img pt1 pt2 color thickness = Raises cv2_error).
Proof.
  unfold cv2_rectangle.
  destruct (fits_point pt1), (fits_point pt2); simpl; auto.
Qed.

Lemma cv2_putText_outcome (img : Image) (text : str) (org : Z * Z) (font : Font)
    (fontScale : Q) (color : Z * Z * Z) (thickness : Z) :
  (fits_point org = true ∧
   cv2_putText img text org font fontScale color thickness
   = Returns (paint img (PutText text org font fontScale color thickness)))
  ∨ (fits_point org = false ∧
     cv2_putText img text org font fontScale color thickness = Raises cv2_error).
Proof. unfold cv2_putText. destruct (fits_point org); auto. Qed.

Lemma gel_frame_runs :
  ∃ img, gel_frame = Returns img ∧ shape img = (400, 600, 3).
Proof. eexists. split; reflexivity. Qed.

Lemma lane_labels_runs (enzymes : list str) (img : Image) :
  ∃ img', lane_labels enzymes img = Returns img' ∧ shape img' = shape img ∧
          ∀ op, op ∈ drawn img → op ∈ drawn img'.
Proof.
  eexists. split; [reflexivity|]. split; [reflexivity|].
  intros op Hop. cbn [paint drawn]. rewrite !elem_of_app. auto.
Qed.

(** *** The band loop *)

Lemma band_height_bounds (max_len : nat) (frag : str) :
  max_len ≠ 0 → length frag ≤ max_len →
  (5 ≤ band_height max_len frag ≤ 30)%Z ∧
  (length frag = max_len → band_height max_len frag = 30%Z).
Proof.
  intros Hmax Hle. unfold band_height.
  assert (30 * Z.of_nat (length frag) / Z.of_nat max_len ≤ 30)%Z
    by (apply Z.div_le_upper_bound; lia).
  split; [lia|]. intros ->. rewrite Z.div_mul by lia. lia.
Qed.

Lemma band_height_min (max_len : nat) (frag : str) :
  (5 ≤ band_height max_len frag)%Z.
Proof. unfold band_height. lia. Qed.

Lemma draw_bands_cons (max_len i : nat) (frag : str) (rest : list str)
    (img : Image) :
  max_len ≠ 0 →
  draw_bands max_len i (frag :: rest) img
  = (img1 ← cv2_rectangle img (150, band_row i)%Z
             (300, band_row i + band_height max_len frag)%Z (0, 0, 150)%Z (-1);
     img2 ← cv2_putText img1 (str_of_nat (length frag) ++ py "bp")
             (310, band_row i + band_height max_len frag / 2)%Z
             FONT_HERSHEY_SIMPLEX 0.5 (0, 0, 200)%Z 1;
     draw_bands max_len (S i) rest img2).
Proof. intros Hmax. cbn [draw_bands]. by rewrite decide_False. Qed.

Lemma band_label_fits (max_len i : nat) (frag : str) :
  fits_point (300, band_row i + band_height max_len frag)%Z = true →
  fits_point (150, band_row i)%Z = true ∧
  fits_point (310, band_row i + band_height max_len frag / 2)%Z = true.
Proof.
  rewrite !fits_point_iff. unfold INT_MIN, INT_MAX, band_row.
  pose proof (band_height_min max_len frag).
  assert (0 ≤ band_height max_len frag / 2 ≤ band_height max_len frag)%Z.
  { split; [apply Z.div_pos; lia|].
    apply Z.div_le_upper_bound; lia. }
  lia.
Qed.

(** What one turn of the band loop does: it raises when the lower corner of
    the band is beyond the C [int] range, and draws the band otherwise. *)
Lemma draw_bands_step (max_len i : nat) (frag : str) (rest : list str)
    (img : Image) :
  max_len ≠ 0 →
  ((band_row i + band_height max_len frag ≤ INT_MAX)%Z ∧
   draw_bands max_len i (frag :: rest) img
   = draw_bands max_len (S i) rest
       (paint (paint img
          (Rectangle (150, band_row i)%Z
             (300, band_row i + band_height max_len frag)%Z (0, 0, 150)%Z (-1)))
          (PutText (str_of_nat (length frag) ++ py "bp")
             (310, band_row i + band_height max_len frag / 2)%Z
             FONT_HERSHEY_SIMPLEX 0.5 (0, 0, 200)%Z 1)))
  ∨ ((INT_MAX < band_row i + band_height max_len frag)%Z ∧
     draw_bands max_len i (frag :: rest) img = Raises cv2_error).
Proof.
  intros Hmax. rewrite draw_bands_cons by done. obind.
  destruct (decide (band_row i + band_height max_len frag ≤ INT_MAX)%Z)
    as [Hfit|Hover].
  - left. split; [done|].
    assert (fits_point (300, band_row i + band_height max_len frag)%Z = true)
      as Hpt2.
    { apply fits_point_iff. unfold INT_MIN, INT_MAX, band_row in *.
      pose proof (band_height_min max_len frag). lia. }
    destruct (band_label_fits max_len i frag Hpt2) as [Hpt1 Horg].
    unfold cv2_rectangle, cv2_putText. by rewrite Hpt1, Hpt2, Horg.
  - right. split; [lia|].
    assert (fits_point (300, band_row i + band_height max_len frag)%Z = false)
      as Hpt2.
    { apply not_true_is_false. rewrite fits_point_iff. lia. }
    unfold cv2_rectangle. rewrite Hpt2, andb_false_r. done.
Qed.

Lemma draw_bands_returns (max_len : nat) (fragments : list str) (i : nat)
    (img img' : Image) :
  max_len ≠ 0 →
  draw_bands max_len i fragments img = Returns img' →
  shape img' = shape img ∧
  (∀ op, op ∈ drawn img → op ∈ drawn img') ∧
  ∀ k frag, fragments !! k = Some frag →
    (band_row (i + k) + band_height max_len frag ≤ INT_MAX)%Z ∧
    Rectangle (150, band_row (i + k))%Z
              (300, band_row (i + k) + band_height max_len frag)%Z
              (0, 0, 150)%Z (-1)
      ∈ drawn img' ∧
    PutText (str_of_nat (length frag) ++ py "bp")
            (310, band_row (i + k) + band_height max_len frag / 2)%Z
            FONT_HERSHEY_SIMPLEX 0.5 (0, 0, 200)%Z 1
      ∈ drawn img'.
Proof.
  intros Hmax. revert i img.
  induction fragments as [|frag rest IH]; intros i img Hrun.
  - injection Hrun as <-. split; [done|]. split; [done|]. by intros k f ?.
  - destruct (draw_bands_step max_len i frag rest img Hmax)
      as [[Hfit Heq]|[_ Heq]]; rewrite Heq in Hrun; [|done].
    apply IH in Hrun as (Hshape & Hkeep & Hbands).
    cbn [paint drawn] in Hkeep.
    split; [by rewrite Hshape|]. split.
    { intros op Hop. apply Hkeep. rewrite !elem_of_app. auto. }
    intros [|k] f Hk.
    + injection Hk as <-. replace (i + 0) with i by lia.
      split; [done|].
      split; apply Hkeep; rewrite !elem_of_app, !list_elem_of_singleton; auto.
    + replace (i + S k) with (S i + k) by lia. by apply Hbands.
Qed.

Lemma draw_bands_fits (max_len : nat) (fragments : list str) (i : nat)
    (img : Image) :
  max_len ≠ 0 →
  (∀ k frag, fragments !! k = Some frag →
     (band_row (i + k) + band_height max_len frag ≤ INT_MAX)%Z) →
  ∃ img', draw_bands max_len i fragments img = Returns img'.
Proof.
  intros Hmax. revert i img.
  induction fragments as [|frag rest IH]; intros i img Hfit; [by eexists|].
  destruct (draw_bands_step max_len i frag rest img Hmax)
    as [[_ ->]|[Hover _]].
  - apply IH. intros k f Hk. replace (S i + k) with (i + S k) by lia.
    by apply Hfit.
  - specialize (Hfit 0 frag eq_refl). replace (i + 0) with i in Hfit by lia.
    lia.
Qed.

Lemma draw_bands_raises (max_len : nat) (fragments : list str) (i : nat)
    (img : Image) (e : exn) :
  max_len ≠ 0 →
  draw_bands max_len i fragments img = Raises e → e = cv2_error.
Proof.
  intros Hmax. revert i img.
  induction fragments as [|frag rest IH]; intros i img Hrun; [done|].
  destruct (draw_bands_step max_len i frag rest img Hmax)
    as [[_ Heq]|[_ Heq]]; rewrite Heq in Hrun; [by eapply IH|congruence].
Qed.

(** A band whose lower corner is beyond the range makes the loop raise,
    whatever comes before and after it. *)
Lemma draw_bands_overflow (max_len : nat) (fragments : list str) (i : nat)
    (img : Image) (k : nat) (frag : str) :
  max_len ≠ 0 →
  fragments !! k = Some frag →
  (INT_MAX < band_row (i + k) + band_height max_len frag)%Z →
  draw_bands max_len i fragments img = Raises cv2_error.
Proof.
  intros Hmax Hk Hover.
  destruct (draw_bands max_len i fragments img) as [img'|e] eqn:Hrun.
  - apply draw_bands_returns in Hrun as (_ & _ & Hbands); [|done].
    destruct (Hbands k frag Hk) as [Hfit _]. lia.
  - by rewrite (draw_bands_raises _ _ _ _ _ Hmax Hrun).
Qed.

Lemma draw_bands_zero (fragments : list str) (i : nat) (img : Image) :
  fragments ≠ [] → draw_bands 0 i fragments img = Raises ZeroDivisionError.
Proof. by destruct fragments. Qed.

(** *** The ladder loop *)

Lemma draw_ladder_step (i : nat) (size : Z) (rest : list Z) (img : Image) :
  ((ladder_row i + 10 ≤ INT_MAX)%Z ∧
   ∃ img1, shape img1 = shape img ∧
           (∀ op, op ∈ drawn img → op ∈ drawn img1) ∧
           draw_ladder i (size :: rest) img = draw_ladder (S i) rest img1)
  ∨ ((INT_MAX < ladder_row i + 10)%Z ∧
     draw_ladder i (size :: rest) img = Raises cv2_error).
Proof.
  cbn [draw_ladder]. obind. unfold cv2_rectangle, cv2_putText.
  destruct (decide (ladder_row i + 10 ≤ INT_MAX)%Z) as [Hfit|Hover].
  - left. split; [done|].
    assert (fits_point (400, ladder_row i)%Z = true ∧
            fits_point (450, ladder_row i + 10)%Z = true ∧
            fits_point (460, ladder_row i + 5)%Z = true) as (-> & -> & Horg).
    { rewrite !fits_point_iff. unfold INT_MIN, INT_MAX, ladder_row in *. lia. }
    cbn [andb]. rewrite Horg. eexists. split; [|split; [|done]]; [done|].
    intros op Hop. cbn [paint drawn]. rewrite !elem_of_app. auto.
  - right. split; [lia|].
    assert (fits_point (450, ladder_row i + 10)%Z = false) as ->.
    { apply not_true_is_false. rewrite fits_point_iff. lia. }
    by rewrite andb_false_r.
Qed.

Lemma draw_ladder_returns (ladder : list Z) (i : nat) (img img' : Image) :
  draw_ladder i ladder img = Returns img' →
  shape img' = shape img ∧ ∀ op, op ∈ drawn img → op ∈ drawn img'.
Proof.
  revert i img. induction ladder as [|size rest IH]; intros i img Hrun.
  - by injection Hrun as <-.
  - destruct (draw_ladder_step i size rest img)
      as [[_ (img1 & Hshape & Hkeep & Heq)]|[_ Heq]];
      rewrite Heq in Hrun; [|done].
    apply IH in Hrun as [Hshape' Hkeep']. split; [congruence|auto].
Qed.

Lemma draw_ladder_fits (ladder : list Z) (i : nat) (img : Image) :
  (Z.of_nat i + Z.of_nat (length ladder) ≤ 42949671)%Z →
  ∃ img', draw_ladder i ladder img = Returns img'.
Proof.
  revert i img. induction ladder as [|size rest IH]; intros i img Hle;
    [by eexists|].
  cbn [length] in Hle.
  destruct (draw_ladder_step i size rest img)
    as [[_ (img1 & _ & _ & ->)]|[Hover _]].
  - apply IH. lia.
  - unfold ladder_row, INT_MAX in Hover. lia.
Qed.

Lemma draw_ladder_raises (ladder : list Z) (i : nat) (img : Image) (e : exn) :
  draw_ladder i ladder img = Raises e → e = cv2_error.
Proof.
  revert i img. induction ladder as [|size rest IH]; intros i img Hrun; [done|].
  destruct (draw_ladder_step i size rest img)
    as [[_ (img1 & _ & _ & Heq)]|[_ Heq]];
    rewrite Heq in Hrun; [by eapply IH|congruence].
Qed.

(** *** The experimental lane and the canvas *)

Lemma max_list_lengths_pos (fragments : list str) :
  (∃ f, f ∈ fragments ∧ f ≠ []) → max_list (length <$> fragments) ≠ 0.
Proof.
  intros (f & Hf & Hne).
  assert (length f ≤ max_list (length <$> fragments))
    by (apply max_list_elem_of_le, list_elem_of_fmap; eauto).
  destruct f; [done|]. simpl in *. lia.
Qed.

Lemma max_list_lengths_le (fragments : list str) (frag : str) (k : nat) :
  fragments !! k = Some frag → length frag ≤ max_list (length <$> fragments).
Proof.
  intros Hk. apply max_list_elem_of_le, list_elem_of_fmap.
  exists frag. split; [done|]. by eapply list_elem_of_lookup_2.
Qed.

Lemma experimental_lane_bands (fragments : list str) (img : Image) :
  fragments ≠ [] →
  experimental_lane fragments img
  = draw_bands (max_list (length <$> fragments)) 0 fragments img.
Proof. by destruct fragments. Qed.

(** With at most 53,687,088 fragments every band is within the range. *)
Lemma experimental_lane_fits (fragments : list str) (img : Image) :
  fragments = [] ∨ (∃ f, f ∈ fragments ∧ f ≠ []) →
  (Z.of_nat (length fragments) ≤ 53687088)%Z →
  ∃ img', experimental_lane fragments img = Returns img'.
Proof.
  intros [->|Hne] Hcount; [by eexists|].
  rewrite experimental_lane_bands
    by (destruct Hne as (f & Hf & _); by intros ->; apply elem_of_nil in Hf).
  pose proof (max_list_lengths_pos _ Hne) as Hmax.
  apply draw_bands_fits; [done|]. intros k frag Hk.
  destruct (band_height_bounds _ frag Hmax (max_list_lengths_le _ _ _ Hk))
    as [Hh _].
  apply lookup_lt_Some in Hk. unfold band_row, INT_MAX. lia.
Qed.

Lemma experimental_lane_returns (fragments : list str) (img img' : Image) :
  experimental_lane fragments img = Returns img' →
  shape img' = shape img ∧ (∀ op, op ∈ drawn img → op ∈ drawn img') ∧
  max_list (length <$> fragments) ≠ 0 ∨ fragments = [] ∧ img' = img.
Proof.
  destruct fragments as [|f0 rest] eqn:Hfr; [intros [= <-]; by right|].
  rewrite <- Hfr. intros Hrun. left.
  rewrite experimental_lane_bands in Hrun by (by rewrite Hfr).
  destruct (decide (max_list (length <$> fragments) = 0)) as [Hzero|Hmax].
  { rewrite Hzero, draw_bands_zero in Hrun by (by rewrite Hfr). done. }
  apply draw_bands_returns in Hrun as (? & ? & _); done.
Qed.

Lemma max_list_lengths_zero (fragments : list str) :
  max_list (length <$> fragments) = 0 ↔ Forall (λ f, f = []) fragments.
Proof.
  induction fragments as [|f l IH].
  - split; [constructor|done].
  - change (length f `max` max_list (length <$> l) = 0 ↔
            Forall (λ f, f = []) (f :: l)).
    rewrite Forall_cons, <- IH, <- length_zero_iff_nil. lia.
Qed.

Lemma renderable_or_all_empty (fragments : list str) :
  (fragments = [] ∨ ∃ f, f ∈ fragments ∧ f ≠ []) ∨
  (fragments ≠ [] ∧ Forall (λ f, f = []) fragments).
Proof.
  destruct fragments as [|f l]; [by left; left|].
  destruct (decide (Forall (λ f, f = []) (f :: l))) as [Hall|Hex].
  - by right.
  - left; right. apply not_Forall_Exists in Hex; [|apply _].
    apply Exists_exists in Hex as (g & Hg & Hne). by exists g.
Qed.

Lemma experimental_lane_all_empty (fragments : list str) (img : Image) :
  fragments ≠ [] → Forall (λ f, f = []) fragments →
  experimental_lane fragments img = Raises ZeroDivisionError.
Proof.
  intros Hne Hall%max_list_lengths_zero.
  rewrite experimental_lane_bands, Hall by done. by apply draw_bands_zero.
Qed.

Lemma experimental_lane_raises (fragments : list str) (img : Image) (e : exn) :
  experimental_lane fragments img = Raises e →
  (e = ZeroDivisionError ∧ fragments ≠ [] ∧ Forall (λ f, f = []) fragments)
  ∨ (e = cv2_error ∧ (53687088 < Z.of_nat (length fragments))%Z).
Proof.
  intros Hrun.
  destruct (renderable_or_all_empty fragments) as [Hok|[Hne Hall]].
  - right.
    assert (fragments ≠ []) as Hne by (by intros ->).
    assert (max_list (length <$> fragments) ≠ 0) as Hmax.
    { destruct Hok as [?|Hex]; [done|]. by apply max_list_lengths_pos. }
    split.
    + rewrite experimental_lane_bands in Hrun by done.
      by eapply draw_bands_raises.
    + destruct (decide (Z.of_nat (length fragments) ≤ 53687088)%Z)
        as [Hle|]; [|lia].
      destruct (experimental_lane_fits fragments img Hok Hle) as [? ?].
      congruence.
  - left. rewrite experimental_lane_all_empty in Hrun by done.
    by injection Hrun as <-.
Qed.

(** The canvas: every way [gel_canvas] can end. *)
Lemma gel_canvas_returns (fragments enzymes : list str) (ladder : list Z)
    (img : Image) :
  gel_canvas fragments enzymes ladder = Returns img →
  shape img = (400, 600, 3) ∧
  ∃ img0 img1,
    experimental_lane fragments img0 = Returns img1 ∧
    ∀ op, op ∈ drawn img1 → op ∈ drawn img.
Proof.
  unfold gel_canvas. destruct gel_frame_runs as (img0 & -> & Hs0). obind.
  destruct (experimental_lane fragments img0) as [img1|e] eqn:Hlane; [|done].
  destruct (draw_ladder 0 ladder img1) as [img2|e] eqn:Hladder; [|done].
  destruct (lane_labels_runs enzymes img2) as (img3 & -> & Hs3 & Hkeep3).
  intros [= <-].
  apply draw_ladder_returns in Hladder as [Hs2 Hkeep2].
  split.
  - rewrite Hs3, Hs2, <- Hs0.
    by destruct (experimental_lane_returns _ _ _ Hlane)
      as [(? & _)|[_ ->]].
  - exists img0, img1. split; [done|]. auto.
Qed.

Lemma gel_canvas_fits (fragments enzymes : list str) (ladder : list Z) :
  fragments = [] ∨ (∃ f, f ∈ fragments ∧ f ≠ []) →
  (Z.of_nat (length fragments) ≤ 53687088)%Z →
  (Z.of_nat (length ladder) ≤ 42949671)%Z →
  ∃ img, gel_canvas fragments enzymes ladder = Returns img.
Proof.
  intros Hok Hcount Hladder.
  unfold gel_canvas. destruct gel_frame_runs as (img0 & -> & _). obind.
  destruct (experimental_lane_fits fragments img0 Hok Hcount) as (img1 & ->).
  destruct (draw_ladder_fits ladder 0 img1) as (img2 & ->); [lia|].
  destruct (lane_labels_runs enzymes img2) as (img3 & -> & _). by eexists.
Qed.

Lemma gel_canvas_raises (fragments enzymes : list str) (ladder : list Z)
    (e : exn) :
  gel_canvas fragments enzymes ladder = Raises e →
  (e = ZeroDivisionError ∧ fragments ≠ [] ∧ Forall (λ f, f = []) fragments)
  ∨ (e = cv2_error ∧
     ((53687088 < Z.of_nat (length fragments))%Z ∨
      (42949671 < Z.of_nat (length ladder))%Z)).
Proof.
  unfold gel_canvas. destruct gel_frame_runs as (img0 & -> & _). obind.
  destruct (experimental_lane fragments img0) as [img1|e1] eqn:Hlane.
  - destruct (draw_ladder 0 ladder img1) as [img2|e2] eqn:Hladder.
    + by destruct (lane_labels_runs enzymes img2) as (img3 & -> & _).
    + intros [= <-]. right.
      split; [by eapply draw_ladder_raises|]. right.
      destruct (decide (Z.of_nat (length ladder) ≤ 42949671)%Z) as [Hle|];
        [|lia].
      destruct (draw_ladder_fits ladder 0 img1) as [? ?]; [lia|congruence].
  - intros [= <-].
    destruct (experimental_lane_raises _ _ _ Hlane) as [?|[? ?]]; auto.
Qed.


Lemma gel_canvas_overflow (fragments enzymes : list str) (ladder : list Z)
    (k : nat) (frag : str) :
  max_list (length <$> fragments) ≠ 0 →
  fragments !! k = Some frag →
  (INT_MAX < band_row k + band_height (max_list (length <$> fragments)) frag)%Z →
  gel_canvas fragments enzymes ladder = Raises cv2_error.
Proof.
  intros Hmax Hk Hover. unfold gel_canvas.
  destruct gel_frame_runs as (img0 & -> & _). obind.
  rewrite experimental_lane_bands by (intros ->; by rewrite lookup_nil in Hk).
  by rewrite (draw_bands_overflow _ _ 0 img0 k frag Hmax Hk Hover).
Qed.

Lemma DNA_LADDER_short : (Z.of_nat (length DNA_LADDER) ≤ 42949671)%Z.
Proof. simpl. lia. Qed.

(** What [generate_gel_image] does with the canvas: it writes it under the
    name made from the clock, or passes the exception on. *)
Lemma generate_gel_image_canvas (fragments enzymes : list str) (ladder : list Z)
    (w : World) :
  generate_gel_image fragments enzymes ladder w
  = match gel_canvas fragments enzymes ladder with
    | Returns img =>
        (Returns (py "gel_" ++ strftime (clock w) ++ py ".png"),
         mkWorld (tape w) (cursor w) (clock w)
           (<[py "gel_" ++ strftime (clock w) ++ py ".png" := img]>
              (static_dir w))
           (calls w))
    | Raises e => (Raises e, w)
    end.
Proof.
  unfold generate_gel_image. run.
  by destruct (gel_canvas fragments enzymes ladder).
Qed.

Lemma generate_gel_image_runs (fragments enzymes : list str) (ladder : list Z)
    (w : World) :
  fragments = [] ∨ (∃ f, f ∈ fragments ∧ f ≠ []) →
  (Z.of_nat (length fragments) ≤ 53687088)%Z →
  (Z.of_nat (length ladder) ≤ 42949671)%Z →
  ∃ filename img,
    generate_gel_image fragments enzymes ladder w
    = (Returns filename,
       mkWorld (tape w) (cursor w) (clock w)
               (<[filename := img]> (static_dir w)) (calls w)) ∧
    filename = py "gel_" ++ strftime (clock w) ++ py ".png" ∧
    gel_canvas fragments enzymes ladder = Returns img ∧
    shape img = (400, 600, 3).
Proof.
  intros Hok Hcount Hladder.
  destruct (gel_canvas_fits fragments enzymes ladder Hok Hcount Hladder)
    as (img & Hrun).
  exists (py "gel_" ++ strftime (clock w) ++ py ".png"), img.
  rewrite generate_gel_image_canvas, Hrun. repeat split.
  by apply gel_canvas_returns in Hrun as [? _].
Qed.

Lemma nonempty_renderable (fragments : list str) :
  Forall (λ f, f ≠ []) fragments →
  fragments = [] ∨ (∃ f, f ∈ fragments ∧ f ≠ []).
Proof.
  intros Hne. destruct fragments as [|f l]; [by left|right].
  exists f. split; [left|]. by apply Forall_cons in Hne as [? _].
Qed.

(** C7, as the code has it: for a fragment list of at most 53,687,088
    fragments, the empty list included and no fragment empty, and for every
    enzyme list, the renderer returns a file name and the image it has
    written under that name is 600 pixels wide and 400 tall with 3 channels:
    within that bound the number of fragments neither changes the canvas nor
    makes the renderer fail. *)
Theorem gel_image_dimensions (fragments enzymes : list str) (w : World) :
  Forall (λ f, f ≠ []) fragments →
  (Z.of_nat (length fragments) ≤ 53687088)%Z →
  ∃ filename img,
    generate_gel_image fragments enzymes DNA_LADDER w
    = (Returns filename,
       mkWorld (tape w) (cursor w) (clock w)
               (<[filename := img]> (static_dir w)) (calls w)) ∧
    filename = py "gel_" ++ strftime (clock w) ++ py ".png" ∧
    cols img = 600 ∧ rows img = 400 ∧ channels img = 3.
Proof.
  intros Hne Hcount.
  destruct (generate_gel_image_runs fragments enzymes DNA_LADDER w
              (nonempty_renderable _ Hne) Hcount DNA_LADDER_short)
    as (filename & img & Hrun & Hname & _ & Hs).
  exists filename, img. by inversion Hs.
Qed.

Lemma gel_image_dimensions_witness :
  ∃ filename img,
    generate_gel_image
      (replicate 40 (py "ACGT")) [py "EcoRI"] DNA_LADDER quiet_world
    = (Returns filename,
       mkWorld (tape quiet_world) (cursor quiet_world) (clock quiet_world)
               (<[filename := img]> (static_dir quiet_world))
               (calls quiet_world)) ∧
    filename = py "gel_" ++ strftime (clock quiet_world) ++ py ".png" ∧
    cols img = 600 ∧ rows img = 400 ∧ channels img = 3.
Proof.
  apply (gel_image_dimensions (replicate 40 (py "ACGT")) [py "EcoRI"]
           quiet_world).
  - apply Forall_replicate. discriminate.
  - rewrite length_replicate. lia.
Defined.

Lemma max_list_lengths_replicate (n : nat) (f : str) :
  n ≠ 0 → max_list (length <$> replicate n f) = length f.
Proof.
  intros Hn. rewrite fmap_replicate.
  induction n as [|n IH]; [done|].
  destruct n as [|n]; [cbn; lia|].
  change (length f `max` max_list (replicate (S n) (length f)) = length f).
  rewrite IH by done. lia.
Qed.

(** More copies of one non-empty fragment than the rows of a C [int] can
    number: the band at index 53,687,088 ends at row 2,147,483,650. *)
Lemma gel_canvas_too_many_copies (n : nat) (f : str) (enzymes : list str)
    (ladder : list Z) :
  f ≠ [] → (53687088 < Z.of_nat n)%Z →
  gel_canvas (replicate n f) enzymes ladder = Raises cv2_error.
Proof.
  intros Hf Hn.
  assert (max_list (length <$> replicate n f) = length f) as Hmax
    by (apply max_list_lengths_replicate; lia).
  assert (length f ≠ 0) as Hlen by (by destruct f).
  apply (gel_canvas_overflow _ _ _ (Z.to_nat 53687088) f).
  - by rewrite Hmax.
  - apply lookup_replicate_2. lia.
  - rewrite Hmax.
    pose proof (band_height_bounds (length f) f Hlen (le_n _)) as [_ Hh].
    rewrite (Hh eq_refl). unfold band_row, INT_MAX. lia.
Qed.

(** C7 fails as stated: 53,687,089 fragments "GAATTC", none of them empty,
    make the renderer fail; cv2 refuses the corner of the last band. *)
Lemma gel_image_too_many_fragments :
  Forall (λ f, f ≠ []) too_many_fragments ∧
  Z.of_nat (length too_many_fragments) = 53687089%Z ∧
  generate_gel_image too_many_fragments [py "EcoRI"] DNA_LADDER quiet_world
  = (Raises cv2_error, quiet_world).
Proof.
  unfold too_many_fragments. split; [|split].
  - apply Forall_replicate. discriminate.
  - rewrite length_replicate. lia.
  - rewrite generate_gel_image_canvas.
    rewrite gel_canvas_too_many_copies; [done|discriminate|lia].
Qed.

(** Every list the digestion engine returns is free of empty fragments, and
    has no more fragments than the sequence has letters. *)
Lemma cut_dna_renderable (S : str) (E : enzyme_arg) :
  cut_dna S E = [] ∨ (∃ f, f ∈ cut_dna S E ∧ f ≠ []).
Proof. apply nonempty_renderable, cut_dna_nonempty_fragments. Qed.

Lemma nonempty_count_le_concat (l : list str) :
  Forall (λ f, f ≠ []) l → length l ≤ length (concat l).
Proof.
  induction 1 as [|f l Hf _ IH]; [done|].
  cbn [concat length]. rewrite length_app.
  destruct f; [done|]. simpl. lia.
Qed.

Lemma cut_dna_count_le (S : str) (E : enzyme_arg) :
  length (cut_dna S E) ≤ length S.
Proof.
  rewrite (Permutation_length (cut_dna_Permutation S E)).
  rewrite <- (fragments_of_concat S (cut_positions S E)
                (cut_positions_ascending S E)) at 2.
  apply nonempty_count_le_concat, fragments_of_nonempty.
Qed.

(** ** Request handler *)

Lemma invalid_enzymes_spec (enzymes : list str) (e : str) :
  e ∈ invalid_enzymes enzymes ↔ e ∈ enzymes ∧ e ∉ dict_keys ENZYMES.
Proof.
  unfold invalid_enzymes, dict_mem. rewrite list_elem_of_filter.
  rewrite bool_decide_eq_false. tauto.
Qed.

(** Lines 120-124 when some name is unknown: the error names exactly the
    unknown ones, and nothing else happens. *)
Lemma digest_and_render_invalid (dna : str) (enzyme_input : enzyme_arg)
    (w : World) :
  invalid_enzymes (as_list enzyme_input) ≠ [] →
  digest_and_render dna enzyme_input w
  = (Returns (InvalidEnzyme (invalid_enzymes (as_list enzyme_input))), w).
Proof.
  intros Hinv. unfold digest_and_render. cbv zeta.
  by destruct (invalid_enzymes (as_list enzyme_input)).
Qed.

(** Lines 126-136 when every name is known: digestion, then rendering; the
    success body when the canvas could be drawn, and the exception of cv2,
    which needs more than 53,687,088 fragments, when it could not. *)
Lemma digest_and_render_proceeds (dna : str) (enzyme_input : enzyme_arg)
    (w : World) :
  invalid_enzymes (as_list enzyme_input) = [] →
  let enzymes := as_list enzyme_input in
  let frags := cut_dna dna (Many enzymes) in
  let logged := calls w ++ [CallCut dna enzymes; CallRender frags enzymes] in
  let filename := py "gel_" ++ strftime (clock w) ++ py ".png" in
  (∃ img,
     gel_canvas frags enzymes DNA_LADDER = Returns img ∧
     shape img = (400, 600, 3) ∧
     digest_and_render dna enzyme_input w
     = (Returns (Json200 (mkPayload dna frags filename enzymes DNA_LADDER)),
        mkWorld (tape w) (cursor w) (clock w)
                (<[filename := img]> (static_dir w)) logged))
  ∨ (gel_canvas frags enzymes DNA_LADDER = Raises cv2_error ∧
     (53687088 < Z.of_nat (length frags))%Z ∧
     digest_and_render dna enzyme_input w
     = (Raises cv2_error,
        mkWorld (tape w) (cursor w) (clock w) (static_dir w) logged)).
Proof.
  intros Hinv enzymes frags logged filename. unfold digest_and_render.
  cbv zeta. rewrite Hinv. fold enzymes. fold frags. run. unfold log.
  cbv beta iota. cbn [tape cursor clock static_dir calls].
  rewrite generate_gel_image_canvas. cbn [tape cursor clock static_dir calls].
  rewrite <- app_assoc. change ([?a] ++ [?b]) with [a; b]. fold logged.
  fold filename.
  destruct (gel_canvas frags enzymes DNA_LADDER) as [img|e] eqn:Hcanvas.
  - left. exists img. split; [done|]. split; [|done].
    by apply gel_canvas_returns in Hcanvas as [? _].
  - destruct (gel_canvas_raises _ _ _ _ Hcanvas)
      as [(_ & Hne & Hall)|(-> & [Hmany|Hladder])].
    + pose proof (cut_dna_nonempty_fragments dna (Many enzymes)) as Hfr.
      fold frags in Hfr. destruct frags as [|f l]; [done|].
      apply Forall_cons in Hall as [-> _]. by apply Forall_cons in Hfr as [? _].
    + right. by repeat split.
    + pose proof DNA_LADDER_short. lia.
Qed.

Lemma simulate_fingerprint_cases (data : Request) (w : World) :
  let dna := normalized_sequence data in
  let enzyme_input := default (One (py "EcoRI")) (body_enzyme data) in
  let n := default 100%Z (body_length data) in
  (dna = [] ∧ ∃ s k,
     simulate_fingerprint data w
     = digest_and_render s enzyme_input
         (mkWorld (tape w) k (clock w) (static_dir w)
                  (calls w ++ [CallGenerate n])))
  ∨ (dna ≠ [] ∧ all_ATGC dna = true ∧
     simulate_fingerprint data w = digest_and_render dna enzyme_input w)
  ∨ (dna ≠ [] ∧ all_ATGC dna = false ∧
     simulate_fingerprint data w = (Returns InvalidSequence, w)).
Proof.
  intros dna enzyme_input n. unfold simulate_fingerprint. cbv zeta.
  fold dna. fold enzyme_input. fold n.
  case_decide as Hdna.
  - left. split; [done|]. run. unfold log. cbv beta iota.
    set (w1 := mkWorld _ _ _ _ _).
    destruct (generate_dna_sequence_runs n w1) as (s & k & Hrun & _).
    rewrite Hrun. by exists s, k.
  - right. destruct (all_ATGC dna) eqn:Hok; [left|right]; done.
Qed.

Lemma digest_and_render_error (dna : str) (enzyme_input : enzyme_arg)
    (w w' : World) (status : nat) (error : str) :
  digest_and_render dna enzyme_input w = (Returns (JsonError status error), w') →
  w' = w ∧ invalid_enzymes (as_list enzyme_input) ≠ [] ∧
  JsonError status error = InvalidEnzyme (invalid_enzymes (as_list enzyme_input)).
Proof.
  intros Hrun.
  destruct (decide (invalid_enzymes (as_list enzyme_input) = [])) as [Hok|Hbad].
  - destruct (digest_and_render_proceeds dna enzyme_input w Hok)
      as [(img & _ & _ & Hval)|(_ & _ & Hval)];
      rewrite Hval in Hrun; discriminate.
  - rewrite (digest_and_render_invalid dna enzyme_input w Hbad) in Hrun.
    split; [congruence|split; [done|congruence]].
Qed.

Lemma unknown_enzyme_iff (enzymes : list str) :
  invalid_enzymes enzymes ≠ [] ↔ ∃ e, e ∈ enzymes ∧ e ∉ dict_keys ENZYMES.
Proof.
  split.
  - destruct (invalid_enzymes enzymes) as [|e l] eqn:E; [done|]. intros _.
    exists e. apply invalid_enzymes_spec. rewrite E. left.
  - intros (e & He%invalid_enzymes_spec) Hnil. rewrite Hnil in He.
    by apply elem_of_nil in He.
Qed.

(** The handler past both validations: it has entered the engine and the
    renderer with the sequence [dna], and it ends with the success body, or
    with the exception of cv2 when the digest has more than 53,687,088
    fragments. *)
Lemma simulate_fingerprint_proceeds (data : Request) (w : World) :
  sequence_accepted data →
  invalid_enzymes (requested_enzymes data) = [] →
  let enzymes := requested_enzymes data in
  ∃ dna w',
    (simulate_fingerprint data w).2 = w' ∧
    CallCut dna enzymes ∈ calls w' ∧
    CallRender (cut_dna dna (Many enzymes)) enzymes ∈ calls w' ∧
    ((∃ body img,
        (simulate_fingerprint data w).1 = Returns (Json200 body) ∧
        dna_sequence body = dna ∧
        enzyme_used body = enzymes ∧
        fragments body = cut_dna dna (Many enzymes) ∧
        static_dir w' = <[gel_image body := img]> (static_dir w))
     ∨ ((simulate_fingerprint data w).1 = Raises cv2_error ∧
        (53687088 < Z.of_nat (length (cut_dna dna (Many enzymes))))%Z ∧
        static_dir w' = static_dir w)).
Proof.
  intros Hseq Hok enzymes.
  assert (∀ dna w1, static_dir w1 = static_dir w →
    simulate_fingerprint data w
    = digest_and_render dna (default (One (py "EcoRI")) (body_enzyme data)) w1 →
    ∃ dna w',
      (simulate_fingerprint data w).2 = w' ∧
      CallCut dna enzymes ∈ calls w' ∧
      CallRender (cut_dna dna (Many enzymes)) enzymes ∈ calls w' ∧
      ((∃ body img,
          (simulate_fingerprint data w).1 = Returns (Json200 body) ∧
          dna_sequence body = dna ∧
          enzyme_used body = enzymes ∧
          fragments body = cut_dna dna (Many enzymes) ∧
          static_dir w' = <[gel_image body := img]> (static_dir w))
       ∨ ((simulate_fingerprint data w).1 = Raises cv2_error ∧
          (53687088 < Z.of_nat (length (cut_dna dna (Many enzymes))))%Z ∧
          static_dir w' = static_dir w))) as Hgo.
  { intros dna w1 Hdir ->. exists dna.
    destruct (digest_and_render_proceeds dna _ w1 Hok)
      as [(img & _ & _ & ->)|(_ & Hmany & ->)];
      eexists; (split; [reflexivity|]); cbn [fst snd calls static_dir];
      fold (requested_enzymes data); fold enzymes.
    - split; [set_solver|]. split; [set_solver|]. left.
      eexists _, img. cbn [dna_sequence enzyme_used fragments gel_image].
      by rewrite Hdir.
    - split; [set_solver|]. split; [set_solver|]. right. by rewrite Hdir. }
  destruct (simulate_fingerprint_cases data w)
    as [(_ & s & k & Heq)|[(_ & _ & Heq)|(_ & Hno & _)]];
    [| |unfold sequence_accepted in Hseq; congruence].
  - by eapply Hgo; [|exact Heq].
  - by eapply Hgo; [|exact Heq].
Qed.

(** C6, as the code has it: for a request that gets past the sequence check,
    an enzyme list with a name outside the table is answered with status 400
    and the message "Invalid enzymes: " followed by all the unknown names,
    without entering the digestion engine or the renderer and without
    touching the static directory; a list with every name in the table goes
    on to digestion and rendering, and the answer is then the success body,
    unless the digest has more than 53,687,088 fragments and cv2 refuses to
    draw them. *)
Theorem enzyme_validation (data : Request) (w : World) :
  sequence_accepted data →
  let enzymes := requested_enzymes data in
  let unknown := invalid_enzymes enzymes in
  ((∃ e, e ∈ enzymes ∧ e ∉ dict_keys ENZYMES) →
   (∀ e, e ∈ unknown ↔ e ∈ enzymes ∧ e ∉ dict_keys ENZYMES) ∧
   ∃ w' evs,
     simulate_fingerprint data w
     = (Returns (JsonError 400 (py "Invalid enzymes: " ++ join (py ", ") unknown)),
        w') ∧
     static_dir w' = static_dir w ∧
     calls w' = calls w ++ evs ∧
     Forall (λ c, enters_engine_or_renderer c = false) evs) ∧
  ((∀ e, e ∈ enzymes → e ∈ dict_keys ENZYMES) →
   ∃ dna w',
     (simulate_fingerprint data w).2 = w' ∧
     CallCut dna enzymes ∈ calls w' ∧
     CallRender (cut_dna dna (Many enzymes)) enzymes ∈ calls w' ∧
     ((∃ body img,
         (simulate_fingerprint data w).1 = Returns (Json200 body) ∧
         dna_sequence body = dna ∧
         enzyme_used body = enzymes ∧
         fragments body = cut_dna dna (Many enzymes) ∧
         static_dir w' = <[gel_image body := img]> (static_dir w))
      ∨ ((simulate_fingerprint data w).1 = Raises cv2_error ∧
         (53687088 < Z.of_nat (length (cut_dna dna (Many enzymes))))%Z ∧
         static_dir w' = static_dir w))).
Proof.
  intros Hseq enzymes unknown. split.
  - intros Hbad%unknown_enzyme_iff. split; [apply invalid_enzymes_spec|].
    destruct (simulate_fingerprint_cases data w)
      as [(_ & s & k & ->)|[(_ & _ & ->)|(_ & Hno & _)]];
      [| |unfold sequence_accepted in Hseq; congruence].
    + rewrite digest_and_render_invalid by done.
      eexists _, [_]. repeat split. by repeat constructor.
    + rewrite digest_and_render_invalid by done.
      exists w, []. repeat split; [by rewrite app_nil_r|constructor].
  - intros Hall. apply simulate_fingerprint_proceeds; [done|].
    destruct (decide (unknown = [])) as [|Hne]; [done|].
    apply unknown_enzyme_iff in Hne as (e & He & Hno).
    destruct Hno. by apply Hall.
Qed.

Ltac by_decide := apply (bool_decide_unpack _); vm_compute; exact I.

Lemma enzyme_validation_witness :
  (∃ w' evs,
     simulate_fingerprint two_unknown_enzymes quiet_world
     = (Returns (JsonError 400 (py "Invalid enzymes: Foo, Bar")), w') ∧
     static_dir w' = static_dir quiet_world ∧
     calls w' = calls quiet_world ++ evs ∧
     Forall (λ c, enters_engine_or_renderer c = false) evs) ∧
  (∃ dna w' body img,
     (simulate_fingerprint two_known_enzymes quiet_world).2 = w' ∧
     CallCut dna [py "EcoRI"; py "BamHI"] ∈ calls w' ∧
     CallRender (cut_dna dna (Many [py "EcoRI"; py "BamHI"]))
                [py "EcoRI"; py "BamHI"] ∈ calls w' ∧
     (simulate_fingerprint two_known_enzymes quiet_world).1
     = Returns (Json200 body) ∧
     dna_sequence body = dna ∧
     enzyme_used body = [py "EcoRI"; py "BamHI"] ∧
     fragments body = cut_dna dna (Many [py "EcoRI"; py "BamHI"]) ∧
     static_dir w' = <[gel_image body := img]> (static_dir quiet_world)).
Proof.
  split.
  - destruct (enzyme_validation two_unknown_enzymes quiet_world eq_refl)
      as [Hbad _].
    destruct Hbad as (_ & w' & evs & H); [|by exists w', evs].
    exists (py "Foo"). split; by_decide.
  - destruct (enzyme_validation two_known_enzymes quiet_world eq_refl)
      as [_ Hgood].
    destruct Hgood as (dna & w' & Hw & Hcut & Hrender & Hend).
    + intros e He.
      apply elem_of_cons in He as [->|He]; [by_decide|].
      apply elem_of_cons in He as [->|He]; [by_decide|].
      by apply elem_of_nil in He.
    + destruct Hend as [(body & img & Hbody)|(Hraise & _)].
      * exists dna, w', body, img.
        exact (conj Hw (conj Hcut (conj Hrender Hbody))).
      * vm_compute in Hraise. discriminate Hraise.
Defined.

(** C6 fails as stated when the sequence is rejected first: the enzyme
    "Foo" is not in the table, yet the answer is the sequence error. *)
Lemma unknown_enzyme_after_bad_sequence :
  (∃ e, e ∈ requested_enzymes bad_sequence_unknown_enzyme ∧
        e ∉ dict_keys ENZYMES) ∧
  simulate_fingerprint bad_sequence_unknown_enzyme quiet_world
  = (Returns InvalidSequence, quiet_world) ∧
  InvalidSequence
  ≠ InvalidEnzyme (invalid_enzymes (requested_enzymes bad_sequence_unknown_enzyme)).
Proof.
  split; [|split].
  - exists (py "Foo"). split; by_decide.
  - reflexivity.
  - vm_compute. discriminate.
Qed.

(** C9, as the code has it: a request without the [enzyme] field that gets
    past the sequence check is validated and digested with the single enzyme
    "EcoRI"; the answer is then the success body, whose [enzyme_used] is
    ["EcoRI"], unless the digest has more than 53,687,088 fragments and cv2
    refuses to draw them, in which case there is no answer. *)
Theorem default_enzyme (data : Request) (w : World) :
  body_enzyme data = None →
  sequence_accepted data →
  requested_enzymes data = [py "EcoRI"] ∧
  invalid_enzymes [py "EcoRI"] = [] ∧
  ∃ dna w',
    (simulate_fingerprint data w).2 = w' ∧
    CallCut dna [py "EcoRI"] ∈ calls w' ∧
    ((∃ body,
        (simulate_fingerprint data w).1 = Returns (Json200 body) ∧
        dna_sequence body = dna ∧
        enzyme_used body = [py "EcoRI"] ∧
        fragments body = cut_dna dna (Many [py "EcoRI"]))
     ∨ ((simulate_fingerprint data w).1 = Raises cv2_error ∧
        (53687088 < Z.of_nat (length (cut_dna dna (Many [py "EcoRI"]))))%Z)).
Proof.
  intros Hnone Hseq.
  assert (requested_enzymes data = [py "EcoRI"]) as Hreq
    by (unfold requested_enzymes; by rewrite Hnone).
  assert (invalid_enzymes [py "EcoRI"] = []) as Hok
    by (vm_compute; reflexivity).
  split; [done|]. split; [done|].
  destruct (simulate_fingerprint_proceeds data w Hseq) as
    (dna & w' & Hw & Hcut & _ & Hend); [by rewrite Hreq|].
  rewrite Hreq in *. exists dna, w'. split; [done|]. split; [done|].
  destruct Hend as [(body & img & Hb & Hd & He & Hf & _)|(Hraise & Hmany & _)].
  - left. by exists body.
  - right. by split.
Qed.

Lemma default_enzyme_witness :
  requested_enzymes no_enzyme_field = [py "EcoRI"] ∧
  invalid_enzymes [py "EcoRI"] = [] ∧
  ∃ dna w' body,
    (simulate_fingerprint no_enzyme_field quiet_world).2 = w' ∧
    CallCut dna [py "EcoRI"] ∈ calls w' ∧
    (simulate_fingerprint no_enzyme_field quiet_world).1
    = Returns (Json200 body) ∧
    dna_sequence body = dna ∧
    enzyme_used body = [py "EcoRI"] ∧
    fragments body = cut_dna dna (Many [py "EcoRI"]).
Proof.
  destruct (default_enzyme no_enzyme_field quiet_world eq_refl eq_refl)
    as (Hreq & Hok & dna & w' & Hw & Hcut & Hend).
  split; [exact Hreq|]. split; [exact Hok|].
  destruct Hend as [(body & Hbody)|(Hraise & _)].
  - exists dna, w', body. exact (conj Hw (conj Hcut Hbody)).
  - vm_compute in Hraise. discriminate Hraise.
Defined.

(** C10: when the handler answers with a 400 error, it has entered neither
    the digestion engine nor the renderer, and the static directory is as it
    was before the request. *)
Theorem validation_error_writes_nothing (data : Request) (w w' : World)
    (error : str) :
  simulate_fingerprint data w = (Returns (JsonError 400 error), w') →
  static_dir w' = static_dir w ∧
  ∃ evs, calls w' = calls w ++ evs ∧
         Forall (λ c, enters_engine_or_renderer c = false) evs.
Proof.
  intros Hrun.
  destruct (simulate_fingerprint_cases data w)
    as [(_ & s & k & Heq)|[(_ & _ & Heq)|(_ & _ & Heq)]];
    rewrite Heq in Hrun.
  - apply digest_and_render_error in Hrun as (-> & _). simpl.
    split; [done|]. eexists [_]. split; [done|]. by repeat constructor.
  - apply digest_and_render_error in Hrun as (-> & _).
    split; [done|]. exists []. by rewrite app_nil_r.
  - injection Hrun as _ ->.
    split; [done|]. exists []. by rewrite app_nil_r.
Qed.

Lemma validation_error_writes_nothing_witness :
  static_dir (mkWorld (tape quiet_world) 6 (clock quiet_world) ∅
                [CallGenerate 2])
  = static_dir quiet_world ∧
  ∃ evs, calls (mkWorld (tape quiet_world) 6 (clock quiet_world) ∅
                  [CallGenerate 2])
         = calls quiet_world ++ evs ∧
         Forall (λ c, enters_engine_or_renderer c = false) evs.
Proof.
  apply (validation_error_writes_nothing generated_unknown_enzyme quiet_world
           _ (py "Invalid enzymes: Foo")).
  vm_compute. reflexivity.
Defined.
(** * Further properties of the code *)

(** ** Digestion engine: cut positions *)

Lemma ascending_NoDup_strict (l : list nat) :
  StronglySorted le l → NoDup l → StronglySorted lt l.
Proof.
  induction 1 as [|x l Hl IH Hx]; intros Hnd; [constructor|].
  apply NoDup_cons in Hnd as [Hnotin Hnd].
  constructor; [by apply IH|].
  apply Forall_forall. intros y Hy.
  assert (x ≤ y) by (by eapply Forall_forall in Hx).
  assert (x ≠ y) by (by intros ->). lia.
Qed.

Lemma cut_positions_NoDup (s : str) (enzymes : enzyme_arg) :
  NoDup (cut_positions s enzymes).
Proof.
  unfold cut_positions. rewrite (sorted_Permutation id). apply NoDup_elements.
Qed.

Lemma cut_positions_strict (s : str) (enzymes : enzyme_arg) :
  StronglySorted lt (cut_positions s enzymes).
Proof.
  apply ascending_NoDup_strict;
    [apply cut_positions_ascending|apply cut_positions_NoDup].
Qed.

Lemma elem_of_extend_cuts (s : str) (acc : list nat) (e : str) (p : nat) :
  p ∈ extend_cuts s acc e ↔
  p ∈ acc ∨ ∃ r, dict_lookup ENZYMES e = Some r ∧ r ≠ [] ∧ p ∈ site_cuts s r.
Proof.
  unfold extend_cuts, dict_get.
  destruct (dict_lookup ENZYMES e) as [r|].
  - change (default [] (Some r)) with r. case_decide as Hr.
    + split; [by left|]. intros [?|(r' & [= <-] & ? & _)]; done.
    + rewrite elem_of_app. split.
      * intros [?|?]; [by left|right; by exists r].
      * intros [?|(r' & [= <-] & _ & ?)]; [by left|by right].
  - change (default [] None) with (@nil ascii). case_decide; [|done].
    split; [by left|]. intros [?|(r' & ? & _)]; done.
Qed.

Lemma elem_of_foldl_extend_cuts (s : str) (names : list str) (acc : list nat)
    (p : nat) :
  p ∈ foldl (extend_cuts s) acc names ↔
  p ∈ acc ∨ ∃ e r, e ∈ names ∧ dict_lookup ENZYMES e = Some r ∧ r ≠ [] ∧
                   p ∈ site_cuts s r.
Proof.
  revert acc. induction names as [|e names IH]; intros acc; cbn [foldl].
  - split; [by left|]. intros [?|(? & ? & ?%elem_of_nil & _)]; done.
  - rewrite IH, elem_of_extend_cuts. split.
    + intros [[?|(r & Hr)]|(e' & r & He' & Hr)]; [by left|right..].
      * exists e, r. split; [left|done].
      * exists e', r. split; [by right|done].
    + intros [?|(e' & r & He' & Hr)]; [by left; left|].
      apply elem_of_cons in He' as [->|He'].
      * left; right. by exists r.
      * right. by exists e', r.
Qed.

Lemma elem_of_cut_positions_site (s : str) (enzymes : enzyme_arg) (p : nat) :
  p ∈ cut_positions s enzymes ↔
  ∃ e r, e ∈ as_list enzymes ∧ dict_lookup ENZYMES e = Some r ∧ r ≠ [] ∧
         p ∈ site_cuts s r.
Proof.
  rewrite elem_of_cut_positions. unfold raw_cut_positions.
  rewrite elem_of_foldl_extend_cuts. split; [|by right].
  by intros [?%elem_of_nil|?].
Qed.

Lemma site_cuts_occurrence (s r : str) (p : nat) :
  r ≠ [] →
  p ∈ site_cuts s r ↔ ∃ pre post, s = pre ++ r ++ post ∧ p = length pre + length r.
Proof.
  intros Hr. rewrite site_cuts_spec. split.
  - intros (i & -> & Hi & [post Hpost]).
    exists (take i s), post. split.
    + by rewrite <- Hpost, take_drop.
    + rewrite length_take_le by lia. done.
  - intros (pre & post & -> & ->). exists (length pre).
    split; [done|]. split.
    + rewrite !length_app. destruct r; [done|]. simpl. lia.
    + rewrite drop_app_length. by exists post.
Qed.

(** X1: the cut positions are strictly ascending, so no offset occurs
    twice, however many enzymes cut at it. *)
Theorem cut_positions_strictly_ascending (S : str) (E : enzyme_arg) :
  StronglySorted lt (cut_positions S E).
Proof. apply cut_positions_strict. Qed.

(** X2: an offset is a cut position exactly when one of the named enzymes
    is in the table with a non-empty recognition sequence and an occurrence
    of that sequence in the sequence ends at the offset. *)
Theorem cut_position_iff_site_end (S : str) (E : enzyme_arg) (p : nat) :
  p ∈ cut_positions S E ↔
  ∃ e r pre post,
    e ∈ as_list E ∧ dict_lookup ENZYMES e = Some r ∧ r ≠ [] ∧
    S = pre ++ r ++ post ∧ p = length pre + length r.
Proof.
  rewrite elem_of_cut_positions_site. split.
  - intros (e & r & He & Hl & Hr & Hp).
    apply site_cuts_occurrence in Hp as (pre & post & HS & Hp); [|done].
    by exists e, r, pre, post.
  - intros (e & r & pre & post & He & Hl & Hr & HS & Hp).
    exists e, r. repeat split; try done.
    apply site_cuts_occurrence; [done|]. by exists pre, post.
Qed.

Lemma dict_lookup_mem (d : list (str * str)) (e r : str) :
  dict_lookup d e = Some r → dict_mem d e = true.
Proof.
  intros Hl. apply bool_decide_eq_true. unfold dict_keys.
  induction d as [|[k v] d IH]; simpl in *; [done|].
  case_decide as Hk; [subst; left|right; auto].
Qed.

Lemma cut_positions_same_names (s : str) (E1 E2 : enzyme_arg) :
  (∀ e, dict_mem ENZYMES e = true → e ∈ as_list E1 ↔ e ∈ as_list E2) →
  cut_positions s E1 = cut_positions s E2.
Proof.
  intros Hsame.
  apply (StronglySorted_unique le);
    [apply cut_positions_ascending..|].
  apply NoDup_Permutation; [apply cut_positions_NoDup..|].
  intros p. rewrite !elem_of_cut_positions_site.
  split; intros (e & r & He & Hl & Hrest); exists e, r;
    (split; [by apply (Hsame e (dict_lookup_mem _ e r Hl))|done]).
Qed.

(** X3: the result depends only on which names of the table are given, not
    on their order, on repetitions, or on names outside the table. *)
Theorem cut_dna_same_names (S : str) (E1 E2 : enzyme_arg) :
  (∀ e, dict_mem ENZYMES e = true → e ∈ as_list E1 ↔ e ∈ as_list E2) →
  cut_dna S E1 = cut_dna S E2.
Proof.
  intros Hsame. unfold cut_dna, fragments_in_order.
  by rewrite (cut_positions_same_names S E1 E2 Hsame).
Qed.

Lemma cut_dna_same_names_witness :
  cut_dna (py "GGATCCAGAATTCAAGCTTT")
          (Many [py "EcoRI"; py "Foo"; py "BamHI"; py "EcoRI"])
  = cut_dna (py "GGATCCAGAATTCAAGCTTT") (Many [py "BamHI"; py "EcoRI"]).
Proof.
  apply (cut_dna_same_names (py "GGATCCAGAATTCAAGCTTT")
           (Many [py "EcoRI"; py "Foo"; py "BamHI"; py "EcoRI"])
           (Many [py "BamHI"; py "EcoRI"])).
  intros e He. simpl. rewrite !elem_of_cons, !elem_of_nil.
  split; [intros [->|[->|[->|[->|[]]]]]|intros [->|[->|[]]]]; auto.
  vm_compute in He. discriminate.
Defined.

(** ** Digestion engine: fragments *)

Lemma fragments_in_order_concat (s : str) (enzymes : enzyme_arg) :
  concat (fragments_in_order s enzymes) = s.
Proof. apply fragments_of_concat, cut_positions_ascending. Qed.

Lemma cut_positions_range (s : str) (enzymes : enzyme_arg) :
  Forall (λ p, 0 < p ≤ length s) (cut_positions s enzymes).
Proof.
  apply Forall_forall. intros p (e & r & _ & _ & Hr & Hp)%elem_of_cut_positions_site.
  pose proof (site_cuts_bounds s r Hr) as Hb.
  by eapply Forall_forall in Hb.
Qed.

Lemma cut_positions_none (s : str) (enzymes : enzyme_arg) :
  (∀ e r, e ∈ as_list enzymes → dict_lookup ENZYMES e = Some r →
          ¬ occurs_in r s) →
  cut_positions s enzymes = [].
Proof.
  intros Hno. destruct (cut_positions s enzymes) as [|p l] eqn:E; [done|].
  assert (p ∈ cut_positions s enzymes) as Hp by (rewrite E; left).
  apply elem_of_cut_positions_site in Hp as (e & r & He & Hl & Hr & Hp).
  apply site_cuts_occurrence in Hp as (pre & post & HS & _); [|done].
  destruct (Hno e r He Hl). by exists pre, post.
Qed.

Lemma slice_occurs (s : str) (i : nat) (j : option nat) :
  occurs_in (slice s i j) s.
Proof.
  destruct j as [j|]; simpl.
  - exists (take i s), (drop (j - i) (drop i s)).
    by rewrite app_assoc, <- (app_assoc (take i s)), !take_drop.
  - exists (take i s), []. by rewrite app_nil_r, take_drop.
Qed.

(** The non-empty slices from boundary [i] on: one for each boundary that
    lies inside the sequence. *)
Lemma slices_from_count (s : str) (cuts : list nat) (i : nat) :
  StronglySorted lt (i :: cuts) →
  Forall (λ c, c ≤ length s) cuts →
  length (filter (λ f, f ≠ [])
            ((λ ij, slice s ij.1 ij.2) <$>
               zip (i :: cuts) ((Some <$> cuts) ++ [None])))
  = (if decide (i < length s) then 1 else 0)
    + length (filter (λ p, p < length s) cuts).
Proof.
  revert i. induction cuts as [|c cuts IH]; intros i Hs Hle.
  - cbn [fmap list_fmap app zip zip_with fst snd slice].
    rewrite filter_cons, !filter_nil.
    assert (drop i s ≠ [] ↔ i < length s) as Hdrop.
    { rewrite <- length_zero_iff_nil, length_drop. lia. }
    repeat case_decide; simpl; try done; tauto.
  - apply StronglySorted_inv in Hs as [Hs Hi].
    apply Forall_cons in Hi as [Hic _]. apply Forall_cons in Hle as [Hc Hle].
    change (length (filter (λ f, f ≠ [])
              (take (c - i) (drop i s) ::
               ((λ ij, slice s ij.1 ij.2) <$>
                  zip (c :: cuts) ((Some <$> cuts) ++ [None]))))
            = (if decide (i < length s) then 1 else 0)
              + length (filter (λ p, p < length s) (c :: cuts))).
    rewrite filter_cons_True.
    2:{ rewrite <- length_zero_iff_nil, length_take, length_drop. lia. }
    cbn [length]. rewrite (IH c Hs Hle), (filter_cons _ c).
    repeat case_decide; simpl; lia.
Qed.

Lemma length_concat_sum (l : list str) :
  length (concat l) = sum_list (length <$> l).
Proof.
  induction l as [|f l IH]; [done|].
  cbn [concat fmap list_fmap]. rewrite length_app, IH. done.
Qed.

(** X4: no fragment of the result is empty. *)
Theorem cut_dna_no_empty_fragment (S : str) (E : enzyme_arg) :
  Forall (λ f, f ≠ []) (cut_dna S E).
Proof. apply cut_dna_nonempty_fragments. Qed.

(** X5: the result is the empty list exactly when the sequence is empty. *)
Theorem cut_dna_empty_iff (S : str) (E : enzyme_arg) :
  cut_dna S E = [] ↔ S = [].
Proof.
  split.
  - intros Hnil. rewrite <- (fragments_in_order_concat S E).
    assert (fragments_in_order S E ≡ₚ []) as ->%Permutation_nil_r; [|done].
    by rewrite <- cut_dna_Permutation, Hnil.
  - intros ->. unfold cut_dna, fragments_in_order.
    rewrite (cut_positions_of_no_raw _ _ (raw_cut_positions_empty_sequence _)).
    by rewrite fragments_of_no_cuts.
Qed.

(** X6: the fragments together have as many letters as the sequence: no
    letter is lost or doubled by the digestion. *)
Theorem cut_dna_conserves_length (S : str) (E : enzyme_arg) :
  sum_list (length <$> cut_dna S E) = length S.
Proof.
  rewrite <- (fragments_in_order_concat S E) at 2.
  rewrite length_concat_sum. by rewrite (cut_dna_Permutation S E).
Qed.

(** X7: every fragment is a contiguous piece of the sequence. *)
Theorem cut_dna_fragments_occur (S : str) (E : enzyme_arg) :
  Forall (λ f, occurs_in f S) (cut_dna S E).
Proof.
  rewrite cut_dna_Permutation. apply Forall_forall. intros f Hf.
  apply list_elem_of_filter in Hf as [_ Hf].
  apply list_elem_of_fmap in Hf as ([i j] & -> & _). apply slice_occurs.
Qed.

Lemma cut_dna_count (S : str) (E : enzyme_arg) :
  length (cut_dna S E)
  = (if decide (S = []) then 0 else 1)
    + length (filter (λ p, p < length S) (cut_positions S E)).
Proof.
  rewrite (cut_dna_Permutation S E).
  unfold fragments_in_order, fragments_of, boundaries.
  rewrite slices_from_count.
  - destruct S; repeat case_decide; simpl in *; try done; lia.
  - constructor; [apply cut_positions_strict|].
    eapply Forall_impl; [apply cut_positions_range|]. simpl. lia.
  - eapply Forall_impl; [apply cut_positions_range|]. simpl. lia.
Qed.

(** X8: the number of fragments is the number of cut positions that lie
    strictly inside the sequence, plus one unless the sequence is empty. *)
Theorem cut_dna_fragment_count (S : str) (E : enzyme_arg) :
  length (cut_dna S E)
  = (if decide (S = []) then 0 else 1)
    + length (filter (λ p, p < length S) (cut_positions S E)).
Proof.
  rewrite (cut_dna_Permutation S E).
  unfold fragments_in_order, fragments_of, boundaries.
  rewrite slices_from_count.
  - destruct S; repeat case_decide; simpl in *; try done; lia.
  - constructor; [apply cut_positions_strict|].
    eapply Forall_impl; [apply cut_positions_range|]. simpl. lia.
  - eapply Forall_impl; [apply cut_positions_range|]. simpl. lia.
Qed.

(** X9: when none of the named enzymes has its recognition sequence in a
    non-empty sequence (names outside the table and the empty list of names
    included), the sequence comes back whole, as the only fragment. *)
Theorem cut_dna_uncut (S : str) (E : enzyme_arg) :
  S ≠ [] →
  (∀ e r, e ∈ as_list E → dict_lookup ENZYMES e = Some r → ¬ occurs_in r S) →
  cut_dna S E = [S].
Proof.
  intros HS Hno. unfold cut_dna, fragments_in_order.
  rewrite (cut_positions_none S E Hno), fragments_of_no_cuts.
  by case_decide.
Qed.

Lemma cut_dna_uncut_witness :
  cut_dna (py "AATT") (Many [py "EcoRI"; py "Foo"; py "BamHI"]) = [py "AATT"].
Proof.
  apply (cut_dna_uncut (py "AATT") (Many [py "EcoRI"; py "Foo"; py "BamHI"])).
  - discriminate.
  - intros e r He Hl (pre & post & H).
    assert (length r = 6) as Hr.
    { cbn [as_list] in He. rewrite !elem_of_cons, elem_of_nil in He.
      destruct He as [->|[->|[->|[]]]]; vm_compute in Hl;
        [|discriminate Hl|]; by injection Hl as <-. }
    apply (f_equal length) in H. rewrite !length_app, Hr in H.
    change (4 = length pre + (6 + length post)) in H. lia.
Defined.

(** ** Sequence generator: the alphabet *)

Lemma all_ATGC_Forall (s : str) :
  all_ATGC s = true ↔ Forall (λ c, c ∈ py "ATGC") s.
Proof.
  unfold all_ATGC. induction s as [|c s IH]; simpl.
  - split; [constructor|done].
  - rewrite andb_true_iff, Forall_cons, IH, bool_decide_eq_true. done.
Qed.

Lemma all_ATGC_app (s t : str) :
  all_ATGC (s ++ t) = all_ATGC s && all_ATGC t.
Proof. apply forallb_app. Qed.

Lemma dict_lookup_elem_of (d : list (str * str)) (key v : str) :
  dict_lookup d key = Some v → (key, v) ∈ d.
Proof.
  induction d as [|[k v'] d IH]; simpl; [done|].
  case_decide as Hk; [intros [= ->]; subst; left|right; auto].
Qed.

Lemma table_sites_ATGC :
  Forall (λ item, all_ATGC item.2 = true) ENZYMES.
Proof. repeat constructor. Qed.

Lemma generate_piece_ATGC (w : World) :
  ∃ p k, generate_piece w = (Returns p, with_cursor w k) ∧
         length p = 1 ∧ all_ATGC p = true.
Proof.
  unfold generate_piece, random_lt_015. run. unfold draw. cbv beta iota.
  set (w1 := mkWorld _ _ _ _ _).
  destruct (bool_decide _).
  - destruct (choice_spec (dict_keys ENZYMES) w1) as (name & Hname & ->);
      [discriminate|].
    destruct (enzyme_sites_nonempty name Hname) as (site & Hl & Hsite).
    rewrite Hl. run.
    destruct (choice_spec site (with_cursor w1 (S (cursor w1))) Hsite)
      as (c & Hc & ->).
    exists [c], (S (S (S (cursor w)))). split; [done|]. split; [done|].
    apply all_ATGC_Forall. constructor; [|constructor].
    pose proof table_sites_ATGC as Htab.
    eapply Forall_forall in Htab; [|by apply dict_lookup_elem_of].
    apply all_ATGC_Forall in Htab. by eapply Forall_forall in Htab.
  - destruct (choice_spec bases w1) as (b & Hb & ->); [discriminate|].
    exists b, (S (S (cursor w))). split; [done|].
    unfold bases in Hb. rewrite !elem_of_cons, elem_of_nil in Hb.
    by destruct Hb as [->|[->|[->|[->|[]]]]].
Qed.

Lemma generate_pieces_ATGC (n : nat) (w : World) :
  ∃ ps k, generate_pieces n w = (Returns ps, with_cursor w k) ∧
          length ps = n ∧
          Forall (λ p, length p = 1 ∧ all_ATGC p = true) ps.
Proof.
  revert w. induction n as [|n IH]; intros w.
  - exists [], (cursor w). by destruct w.
  - simpl. run.
    destruct (generate_piece_ATGC w) as (p & k & -> & Hp).
    destruct (IH (with_cursor w k)) as (ps & k' & -> & Hn & Hps).
    exists (p :: ps), k'. simpl. repeat split; [by f_equal|by constructor].
Qed.

Lemma join_empty_ATGC (ps : list str) :
  Forall (λ p, all_ATGC p = true) ps → all_ATGC (join [] ps) = true.
Proof.
  induction 1 as [|p ps Hp _ IH]; [done|].
  destruct ps as [|q ps]; [done|].
  change (all_ATGC (p ++ [] ++ join [] (q :: ps)) = true).
  by rewrite !all_ATGC_app, Hp, IH.
Qed.

Lemma generate_dna_sequence_full (n : Z) (w : World) :
  ∃ s k, generate_dna_sequence n w = (Returns s, with_cursor w k) ∧
         length s = Z.to_nat n ∧ all_ATGC s = true.
Proof.
  unfold generate_dna_sequence. run.
  destruct (generate_pieces_ATGC (Z.to_nat n) w) as (ps & k & -> & Hn & Hps).
  exists (join [] ps), k. split; [done|]. split.
  - rewrite join_empty_length; [done|].
    eapply Forall_impl; [done|]. by intros ? [? _].
  - apply join_empty_ATGC. eapply Forall_impl; [done|]. by intros ? [_ ?].
Qed.

(** X10: whatever the random draws, the generated sequence holds only the
    letters A, T, G and C, so it would pass the handler's own sequence
    check. *)
Theorem generate_dna_sequence_alphabet (n : Z) (w : World) :
  ∃ s w', generate_dna_sequence n w = (Returns s, w') ∧ all_ATGC s = true.
Proof.
  destruct (generate_dna_sequence_full n w) as (s & k & Hrun & _ & Hs).
  by exists s, (with_cursor w k).
Qed.

(** X11: a requested length of zero or less is not an error: the generator
    returns the empty sequence and makes no random draw. *)
Theorem generate_dna_sequence_nonpositive (n : Z) (w : World) :
  (n ≤ 0)%Z → generate_dna_sequence n w = (Returns [], w).
Proof.
  intros Hn. unfold generate_dna_sequence.
  replace (Z.to_nat n) with 0 by lia. reflexivity.
Qed.

Lemma generate_dna_sequence_nonpositive_witness :
  generate_dna_sequence (-5) quiet_world = (Returns [], quiet_world).
Proof.
  apply (generate_dna_sequence_nonpositive (-5) quiet_world). lia.
Defined.


(** ** Gel renderer: failure, bands, file name *)

Lemma generate_gel_image_inv (fragments enzymes : list str) (ladder : list Z)
    (w w' : World) (filename : str) :
  generate_gel_image fragments enzymes ladder w = (Returns filename, w') →
  ∃ img, gel_canvas fragments enzymes ladder = Returns img ∧
         filename = py "gel_" ++ strftime (clock w) ++ py ".png" ∧
         w' = mkWorld (tape w) (cursor w) (clock w)
                      (<[filename := img]> (static_dir w)) (calls w).
Proof.
  rewrite generate_gel_image_canvas.
  destruct (gel_canvas fragments enzymes ladder) as [img|e]; [|done].
  intros [= <- <-]. by exists img.
Qed.


(** X13: when the canvas is drawn, the renderer has called cv2.rectangle for
    the fragment at index [k] with the corners [(150, 100 + 40 k)] and
    [(300, 100 + 40 k + h)], where the height [h] is between 5 and 30, 30 for
    a longest fragment, and has called cv2.putText with the fragment's
    length followed by "bp".  The rectangle asked for ends above the row
    where the next one starts; from index 8 on it starts below the last of
    the 400 rows of the array. *)
Theorem gel_canvas_band (fragments enzymes : list str) (ladder : list Z)
    (img : Image) (k : nat) (frag : str) :
  gel_canvas fragments enzymes ladder = Returns img →
  fragments !! k = Some frag →
  ∃ h : Z, (5 ≤ h ≤ 30)%Z ∧
    (length frag = max_list (length <$> fragments) → h = 30%Z) ∧
    (100 + Z.of_nat k * 40 + h < 100 + Z.of_nat (S k) * 40)%Z ∧
    (8 ≤ k → (Z.of_nat (rows img) < 100 + Z.of_nat k * 40)%Z) ∧
    Rectangle (150, 100 + Z.of_nat k * 40)%Z
              (300, 100 + Z.of_nat k * 40 + h)%Z (0, 0, 150)%Z (-1)
      ∈ drawn img ∧
    PutText (str_of_nat (length frag) ++ py "bp")
            (310, 100 + Z.of_nat k * 40 + h / 2)%Z
            FONT_HERSHEY_SIMPLEX 0.5 (0, 0, 200)%Z 1
      ∈ drawn img.
Proof.
  intros Hrun Hk.
  apply gel_canvas_returns in Hrun as (Hshape & img0 & img1 & Hlane & Hkeep).
  assert (fragments ≠ []) as Hne by (intros ->; by rewrite lookup_nil in Hk).
  rewrite experimental_lane_bands in Hlane by done.
  destruct (decide (max_list (length <$> fragments) = 0)) as [Hzero|Hmax].
  { by rewrite Hzero, draw_bands_zero in Hlane. }
  apply draw_bands_returns in Hlane as (_ & _ & Hbands); [|done].
  destruct (Hbands k frag Hk) as (_ & Hrect & Htext).
  destruct (band_height_bounds _ frag Hmax (max_list_lengths_le _ _ _ Hk))
    as [Hh Hlong].
  exists (band_height (max_list (length <$> fragments)) frag).
  split; [done|]. split; [done|]. split; [lia|]. split.
  { injection Hshape as -> _ _. lia. }
  split; by apply Hkeep.
Qed.

Lemma gel_canvas_band_witness :
  ∃ img (h : Z),
    gel_canvas [py "AAGAATTC"; py "GG"] [py "EcoRI"] DNA_LADDER = Returns img ∧
    (5 ≤ h ≤ 30)%Z ∧
    Rectangle (150, 100 + Z.of_nat 1 * 40)%Z
              (300, 100 + Z.of_nat 1 * 40 + h)%Z (0, 0, 150)%Z (-1)
      ∈ drawn img.
Proof.
  destruct (gel_canvas [py "AAGAATTC"; py "GG"] [py "EcoRI"] DNA_LADDER)
    as [img|e] eqn:Hrun; [|by vm_compute in Hrun].
  destruct (gel_canvas_band _ _ _ img 1 (py "GG") Hrun eq_refl)
    as (h & Hh & _ & _ & _ & Hrect & _).
  exists img, h. exact (conj eq_refl (conj Hh Hrect)).
Defined.

(** X14: the file name is made from the clock alone.  A second rendering
    while the clock shows the same second gets the same name, and the static
    directory then holds the second image under it: the first one is gone. *)
Theorem gel_image_same_second_overwrites
    (fragments1 fragments2 enzymes1 enzymes2 : list str) (ladder1 ladder2 : list Z)
    (w w1 v v2 : World) (filename1 filename2 : str) :
  generate_gel_image fragments1 enzymes1 ladder1 w = (Returns filename1, w1) →
  clock v = clock w →
  static_dir v = static_dir w1 →
  generate_gel_image fragments2 enzymes2 ladder2 v = (Returns filename2, v2) →
  filename2 = filename1 ∧
  ∃ img2, gel_canvas fragments2 enzymes2 ladder2 = Returns img2 ∧
          static_dir v2 = <[filename1 := img2]> (static_dir w).
Proof.
  intros (img1 & _ & -> & ->)%generate_gel_image_inv Hclock Hdir
         (img2 & Hcanvas & -> & ->)%generate_gel_image_inv.
  rewrite Hclock. split; [done|]. exists img2. split; [done|].
  cbn [static_dir] in *. rewrite Hdir. apply insert_insert_eq.
Qed.

Lemma gel_image_same_second_overwrites_witness :
  py "gel_20240102030405.png" = py "gel_20240102030405.png" ∧
  ∃ img2, gel_canvas [py "GG"] [py "BamHI"] DNA_LADDER = Returns img2 ∧
          static_dir
            (generate_gel_image [py "GG"] [py "BamHI"] DNA_LADDER
               (generate_gel_image [py "AAGAATTC"] [py "EcoRI"] DNA_LADDER
                  quiet_world).2).2
          = <[py "gel_20240102030405.png" := img2]> (static_dir quiet_world).
Proof.
  apply (gel_image_same_second_overwrites
           [py "AAGAATTC"] [py "GG"] [py "EcoRI"] [py "BamHI"]
           DNA_LADDER DNA_LADDER quiet_world
           (generate_gel_image [py "AAGAATTC"] [py "EcoRI"] DNA_LADDER
              quiet_world).2
           (generate_gel_image [py "AAGAATTC"] [py "EcoRI"] DNA_LADDER
              quiet_world).2
           (generate_gel_image [py "GG"] [py "BamHI"] DNA_LADDER
              (generate_gel_image [py "AAGAATTC"] [py "EcoRI"] DNA_LADDER
                 quiet_world).2).2);
    reflexivity.
Defined.

(** ** The enzyme listing *)

(** X15: the listing and the handler agree: a name is listed exactly when
    the handler's validation accepts it, each listed recognition sequence is
    the non-empty one the digestion engine cuts with, and the listed default
    is listed itself and is the enzyme a request without the [enzyme] field
    is run with. *)
Theorem get_enzymes_agrees_with_handler :
  (∀ e, e ∈ entry_name <$> listed get_enzymes ↔ invalid_enzymes [e] = []) ∧
  Forall (λ x, dict_get ENZYMES (entry_name x) [] = entry_sequence x ∧
               entry_sequence x ≠ [])
         (listed get_enzymes) ∧
  listed_default get_enzymes ∈ entry_name <$> listed get_enzymes ∧
  ∀ data, body_enzyme data = None →
          requested_enzymes data = [listed_default get_enzymes].
Proof.
  split; [|split; [|split]].
  - intros e.
    assert (entry_name <$> listed get_enzymes = dict_keys ENZYMES) as ->
      by reflexivity.
    unfold invalid_enzymes, dict_mem. rewrite filter_cons, filter_nil.
    case_decide as Hmem.
    + apply bool_decide_eq_false in Hmem. split; [done|discriminate].
    + split; [done|]. intros _.
      destruct (decide (e ∈ dict_keys ENZYMES)) as [|Hno]; [done|].
      destruct Hmem. by apply bool_decide_eq_false.
  - repeat constructor; discriminate.
  - by_decide.
  - intros data Hnone. unfold requested_enzymes. by rewrite Hnone.
Qed.

(** ** Request handler: every way through it *)

Lemma InvalidEnzyme_not_InvalidSequence (names : list str) :
  InvalidEnzyme names ≠ InvalidSequence.
Proof.
  unfold InvalidEnzyme, InvalidSequence. by intros [= H].
Qed.

(** Lines 109-119 decide which sequence is digested and in which world. *)
Lemma simulate_fingerprint_outcome (data : Request) (w : World) :
  let dna0 := normalized_sequence data in
  let enzyme_input := default (One (py "EcoRI")) (body_enzyme data) in
  let n := default 100%Z (body_length data) in
  (all_ATGC dna0 = false ∧
   simulate_fingerprint data w = (Returns InvalidSequence, w))
  ∨ (all_ATGC dna0 = true ∧ ∃ dna w1,
       simulate_fingerprint data w = digest_and_render dna enzyme_input w1 ∧
       all_ATGC dna = true ∧
       clock w1 = clock w ∧ static_dir w1 = static_dir w ∧
       (dna0 ≠ [] → dna = dna0 ∧ w1 = w) ∧
       (dna0 = [] → length dna = Z.to_nat n)).
Proof.
  intros dna0 enzyme_input n. unfold simulate_fingerprint. cbv zeta.
  fold dna0. fold enzyme_input. fold n.
  case_decide as Hdna.
  - right. split; [by rewrite Hdna|]. run. unfold log. cbv beta iota.
    set (w1 := mkWorld _ _ _ _ _).
    destruct (generate_dna_sequence_full n w1) as (s & k & Hrun & Hlen & Hs).
    rewrite Hrun. exists s, (with_cursor w1 k). by repeat split.
  - destruct (all_ATGC dna0) eqn:Hok; [right|left; by split].
    split; [done|]. exists dna0, w. by repeat split.
Qed.

Lemma simulate_fingerprint_success (data : Request) (w w' : World)
    (body : Payload) :
  simulate_fingerprint data w = (Returns (Json200 body), w') →
  let dna0 := normalized_sequence data in
  let enzymes := requested_enzymes data in
  all_ATGC (dna_sequence body) = true ∧
  (dna0 ≠ [] → dna_sequence body = dna0 ∧ cursor w' = cursor w) ∧
  (dna0 = [] →
   length (dna_sequence body) = Z.to_nat (default 100%Z (body_length data))) ∧
  invalid_enzymes enzymes = [] ∧
  body = mkPayload (dna_sequence body)
           (cut_dna (dna_sequence body) (Many enzymes))
           (py "gel_" ++ strftime (clock w) ++ py ".png") enzymes DNA_LADDER ∧
  ∃ img, gel_canvas (fragments body) (enzyme_used body) DNA_LADDER
         = Returns img ∧
         shape img = (400, 600, 3) ∧
         static_dir w' = <[gel_image body := img]> (static_dir w).
Proof.
  intros Hrun dna0 enzymes.
  destruct (simulate_fingerprint_outcome data w)
    as [[_ Heq]|(_ & dna & w1 & Heq & Hdna & Hclock & Hdir & Hposted & Hgen)];
    rewrite Heq in Hrun; [done|].
  destruct (decide (invalid_enzymes enzymes = [])) as [Hok|Hbad].
  2:{ unfold enzymes, requested_enzymes in Hbad.
      by rewrite digest_and_render_invalid in Hrun. }
  destruct (digest_and_render_proceeds dna _ w1 Hok)
    as [(img & Hcanvas & Hshape & Hval)|(_ & _ & Hval)];
    rewrite Hval in Hrun; [|done].
  injection Hrun as <- <-.
  cbn [dna_sequence gel_image fragments enzyme_used].
  split; [done|]. split.
  { intros Hne. destruct (Hposted Hne) as [-> ->]. done. }
  split; [done|]. split; [done|]. rewrite Hclock. split; [done|].
  exists img. cbn [static_dir]. by rewrite Hdir.
Qed.

Ltac run_example data :=
  destruct (simulate_fingerprint data quiet_world) as [[[body|st err]|e] w']
    eqn:Hrun; [|by vm_compute in Hrun..].

(** X16: for every request and every state of the world the handler ends
    in one of four ways: the sequence error, the enzyme error naming the
    unknown names, a success body, or the exception of cv2, which leaves the
    static directory as it was and needs a sequence of more than 53,687,088
    letters, posted or asked of the generator.  It never ends in any other
    exception. *)
Theorem simulate_fingerprint_always_answers (data : Request) (w : World) :
  (∃ resp w',
     simulate_fingerprint data w = (Returns resp, w') ∧
     (resp = InvalidSequence ∨
      resp = InvalidEnzyme (invalid_enzymes (requested_enzymes data)) ∨
      ∃ body, resp = Json200 body))
  ∨ (∃ w',
       simulate_fingerprint data w = (Raises cv2_error, w') ∧
       static_dir w' = static_dir w ∧
       ((53687088 < Z.of_nat (length (normalized_sequence data)))%Z ∨
        normalized_sequence data = [] ∧
        (53687088 < default 100 (body_length data))%Z)).
Proof.
  destruct (simulate_fingerprint_outcome data w)
    as [[_ ->]|(_ & dna & w1 & -> & _ & _ & Hdir & Hposted & Hgen)];
    [left; by eexists _, _; split; [|left]|].
  destruct (decide (invalid_enzymes (requested_enzymes data) = []))
    as [Hok|Hbad].
  - destruct (digest_and_render_proceeds dna _ w1 Hok)
      as [(img & _ & _ & ->)|(_ & Hmany & ->)].
    + left. eexists _, _. split; [done|]. right; right. by eexists.
    + right. eexists. split; [done|]. split; [done|].
      pose proof (cut_dna_count_le dna
                    (Many (as_list (default (One (py "EcoRI"))
                                      (body_enzyme data))))) as Hle.
      destruct (decide (normalized_sequence data = [])) as [Hnil|Hne].
      * right. split; [done|]. rewrite (Hgen Hnil) in Hle. lia.
      * left. destruct (Hposted Hne) as [<- _]. lia.
  - unfold requested_enzymes in Hbad.
    rewrite digest_and_render_invalid by done.
    left. eexists _, _. split; [done|]. right; by left.
Qed.

(** X17: the sequence error is the answer exactly when the normalized
    sequence holds a character other than A, T, G and C; the world is then
    untouched, the random source included. *)
Theorem invalid_sequence_iff (data : Request) (w w' : World) :
  simulate_fingerprint data w = (Returns InvalidSequence, w') ↔
  all_ATGC (normalized_sequence data) = false ∧ w' = w.
Proof.
  destruct (simulate_fingerprint_outcome data w)
    as [[Hno ->]|(Hyes & dna & w1 & -> & _)].
  - split; [by intros [= <-]|by intros [_ ->]].
  - split; [|intros [? _]; congruence].
    intros Hrun.
    apply digest_and_render_error in Hrun as (_ & _ & Hresp).
    by destruct (InvalidEnzyme_not_InvalidSequence _ (eq_sym Hresp)).
Qed.

(** X18: the sequence of a success body holds only A, T, G and C.  A posted
    sequence comes back upper-cased and without spaces, and no random draw is
    made for it; a missing or empty one is replaced by a generated sequence
    of the requested length, 100 by default, 0 for a negative number. *)
Theorem success_sequence (data : Request) (w w' : World) (body : Payload) :
  simulate_fingerprint data w = (Returns (Json200 body), w') →
  all_ATGC (dna_sequence body) = true ∧
  (normalized_sequence data ≠ [] →
   dna_sequence body = normalized_sequence data ∧ cursor w' = cursor w) ∧
  (normalized_sequence data = [] →
   Z.of_nat (length (dna_sequence body))
   = Z.max 0 (default 100%Z (body_length data))).
Proof.
  intros (Hs & Hposted & Hgen & _)%simulate_fingerprint_success.
  split; [done|]. split; [done|]. intros Hnil. rewrite (Hgen Hnil). lia.
Qed.

Lemma success_sequence_witness :
  ∃ body w',
    simulate_fingerprint two_known_enzymes quiet_world
    = (Returns (Json200 body), w') ∧
    dna_sequence body = py "GGATCCAGAATTCAAGCTTT" ∧ cursor w' = 0.
Proof.
  run_example two_known_enzymes.
  destruct (success_sequence two_known_enzymes quiet_world w' body Hrun)
    as (_ & Hposted & _).
  exists body, w'. split; [done|]. apply Hposted. discriminate.
Defined.

(** X19: in a success body the fragments are the digestion of the body's
    sequence by the body's enzymes, none of them is empty, and together they
    have as many letters as the sequence. *)
Theorem success_fragments (data : Request) (w w' : World) (body : Payload) :
  simulate_fingerprint data w = (Returns (Json200 body), w') →
  fragments body = cut_dna (dna_sequence body) (Many (enzyme_used body)) ∧
  Forall (λ f, f ≠ []) (fragments body) ∧
  sum_list (length <$> fragments body) = length (dna_sequence body).
Proof.
  intros (_ & _ & _ & _ & Hbody & _)%simulate_fingerprint_success.
  rewrite Hbody. cbn [fragments dna_sequence enzyme_used].
  split; [done|]. split; [apply cut_dna_nonempty_fragments|].
  rewrite <- (fragments_in_order_concat (dna_sequence body)
                (Many (requested_enzymes data))) at 2.
  rewrite length_concat_sum. by rewrite cut_dna_Permutation.
Qed.

Lemma success_fragments_witness :
  ∃ body w',
    simulate_fingerprint two_known_enzymes quiet_world
    = (Returns (Json200 body), w') ∧
    fragments body = cut_dna (dna_sequence body) (Many (enzyme_used body)) ∧
    Forall (λ f, f ≠ []) (fragments body) ∧
    sum_list (length <$> fragments body) = length (dna_sequence body).
Proof.
  run_example two_known_enzymes.
  exists body, w'. split; [done|].
  exact (success_fragments two_known_enzymes quiet_world w' body Hrun).
Defined.

(** X20: a success body names the enzymes of the request (the posted name
    or names, "EcoRI" when the field is absent), all of them in the table,
    and the fixed ladder. *)
Theorem success_enzymes_and_ladder (data : Request) (w w' : World)
    (body : Payload) :
  simulate_fingerprint data w = (Returns (Json200 body), w') →
  enzyme_used body = requested_enzymes data ∧
  Forall (λ e, e ∈ dict_keys ENZYMES) (enzyme_used body) ∧
  ladder_sizes body = DNA_LADDER.
Proof.
  intros (_ & _ & _ & Hok & Hbody & _)%simulate_fingerprint_success.
  rewrite Hbody. cbn [enzyme_used ladder_sizes].
  split; [done|]. split; [|done].
  apply Forall_forall. intros e He.
  destruct (decide (e ∈ dict_keys ENZYMES)) as [|Hno]; [done|].
  assert (e ∈ invalid_enzymes (requested_enzymes data)) as Hin
    by (by apply invalid_enzymes_spec).
  rewrite Hok in Hin. by apply elem_of_nil in Hin.
Qed.

Lemma success_enzymes_and_ladder_witness :
  ∃ body w',
    simulate_fingerprint two_known_enzymes quiet_world
    = (Returns (Json200 body), w') ∧
    enzyme_used body = [py "EcoRI"; py "BamHI"] ∧
    Forall (λ e, e ∈ dict_keys ENZYMES) (enzyme_used body) ∧
    ladder_sizes body = DNA_LADDER.
Proof.
  run_example two_known_enzymes.
  exists body, w'. split; [done|].
  exact (success_enzymes_and_ladder two_known_enzymes quiet_world w' body Hrun).
Defined.

(** ** Request handler: the image, posting again, the random source *)

(** X21: after a success the image served under the name in the body is
    the canvas drawn for the body's fragments and enzymes; it is 600 pixels
    wide and 400 tall with 3 channels, and every other name is served as
    before the request. *)
Theorem success_image_served (data : Request) (w w' : World) (body : Payload) :
  simulate_fingerprint data w = (Returns (Json200 body), w') →
  ∃ img,
    gel_canvas (fragments body) (enzyme_used body) DNA_LADDER = Returns img ∧
    serve_gel_image (gel_image body) w' = (Returns (FileFound img), w') ∧
    cols img = 600 ∧ rows img = 400 ∧ channels img = 3 ∧
    ∀ filename, filename ≠ gel_image body →
      (serve_gel_image filename w').1 = (serve_gel_image filename w).1.
Proof.
  intros (_ & _ & _ & _ & _ & img & Hcanvas & Hshape & Hdir)
    %simulate_fingerprint_success.
  exists img. split; [done|]. unfold serve_gel_image. rewrite Hdir.
  split; [by rewrite lookup_insert_eq|].
  injection Hshape as -> -> ->. repeat split.
  intros filename Hne. cbn [fst]. by rewrite lookup_insert_ne.
Qed.

Lemma success_image_served_witness :
  ∃ body w' img,
    simulate_fingerprint no_enzyme_field quiet_world
    = (Returns (Json200 body), w') ∧
    gel_canvas (fragments body) (enzyme_used body) DNA_LADDER = Returns img ∧
    serve_gel_image (gel_image body) w' = (Returns (FileFound img), w') ∧
    cols img = 600 ∧ rows img = 400 ∧ channels img = 3.
Proof.
  run_example no_enzyme_field.
  destruct (success_image_served no_enzyme_field quiet_world w' body Hrun)
    as (img & Hcanvas & Hserve & Hc & Hr & Hch & _).
  exists body, w', img.
  exact (conj eq_refl (conj Hcanvas (conj Hserve (conj Hc (conj Hr Hch))))).
Defined.

Lemma digest_and_render_response_clock (dna : str) (enzyme_input : enzyme_arg)
    (w1 w2 : World) :
  clock w1 = clock w2 →
  (digest_and_render dna enzyme_input w1).1
  = (digest_and_render dna enzyme_input w2).1.
Proof.
  intros Hclock.
  destruct (decide (invalid_enzymes (as_list enzyme_input) = [])) as [Hok|Hbad].
  - destruct (digest_and_render_proceeds dna _ w1 Hok)
      as [(img1 & Hc1 & _ & ->)|(Hc1 & _ & ->)];
    destruct (digest_and_render_proceeds dna _ w2 Hok)
      as [(img2 & Hc2 & _ & ->)|(Hc2 & _ & ->)];
      try congruence; cbn [fst]; [by rewrite Hclock|done].
  - by rewrite !digest_and_render_invalid.
Qed.

(** X22: for a posted sequence that is not empty once it is normalized (it
    has a character other than a space) the outcome does not depend on the
    random source: in two worlds whose clocks agree the handler gives the same
    answer, or fails in the same way. *)
Theorem posted_sequence_answer_fixed (data : Request) (w1 w2 : World) :
  normalized_sequence data ≠ [] →
  clock w1 = clock w2 →
  (simulate_fingerprint data w1).1 = (simulate_fingerprint data w2).1.
Proof.
  intros Hne Hclock.
  destruct (simulate_fingerprint_outcome data w1)
    as [[Hno ->]|(Hyes & dna1 & v1 & -> & _ & _ & _ & Hposted1 & _)];
  destruct (simulate_fingerprint_outcome data w2)
    as [[Hno' ->]|(Hyes' & dna2 & v2 & -> & _ & _ & _ & Hposted2 & _)];
    try (reflexivity || congruence).
  destruct (Hposted1 Hne) as [-> ->]. destruct (Hposted2 Hne) as [-> ->].
  by apply digest_and_render_response_clock.
Qed.

Lemma posted_sequence_answer_fixed_witness :
  (simulate_fingerprint no_enzyme_field quiet_world).1
  = (simulate_fingerprint no_enzyme_field
       (mkWorld (λ k, N.of_nat k) 7 (clock quiet_world) ∅ [])).1.
Proof.
  apply (posted_sequence_answer_fixed no_enzyme_field quiet_world
           (mkWorld (λ k, N.of_nat k) 7 (clock quiet_world) ∅ []));
    [discriminate|reflexivity].
Defined.

Lemma normalized_fixed_point (s : str) :
  all_ATGC s = true → strip_spaces (upper s) = s.
Proof.
  intros Hs%all_ATGC_Forall. unfold strip_spaces, upper.
  induction Hs as [|c s Hc _ IH]; [done|].
  cbn [fmap list_fmap]. change (list_fmap _ _ upper_char s) with (upper_char <$> s).
  assert (upper_char c = c ∧ c ≠ " "%char) as [-> Hsp].
  { unfold py in Hc. simpl in Hc. rewrite !elem_of_cons, elem_of_nil in Hc.
    destruct Hc as [->|[->|[->|[->|[]]]]]; by split. }
  rewrite filter_cons_True by done. by rewrite IH.
Qed.

(** X23: the non-empty sequence of a success body is already normalized:
    posted again with the same enzymes, in any world, it comes back
    unchanged, with the same fragments. *)
Theorem success_sequence_posted_again (data : Request) (w w' v : World)
    (body : Payload) (len : option Z) :
  simulate_fingerprint data w = (Returns (Json200 body), w') →
  dna_sequence body ≠ [] →
  ∃ body' v',
    simulate_fingerprint
      (mkRequest (Some (dna_sequence body)) (body_enzyme data) len) v
    = (Returns (Json200 body'), v') ∧
    dna_sequence body' = dna_sequence body ∧
    fragments body' = fragments body ∧
    enzyme_used body' = enzyme_used body.
Proof.
  intros (Hs & _ & _ & Hok & Hbody & img & Hcanvas & _)
    %simulate_fingerprint_success Hne.
  set (again := mkRequest (Some (dna_sequence body)) (body_enzyme data) len).
  assert (normalized_sequence again = dna_sequence body) as Hnorm
    by (by apply normalized_fixed_point).
  destruct (simulate_fingerprint_outcome again v)
    as [[Hno _]|(_ & dna & v1 & -> & _ & _ & _ & Hposted & _)];
    [congruence|].
  destruct Hposted as [-> ->]; [congruence|].
  change (default (One (py "EcoRI")) (body_enzyme again))
    with (default (One (py "EcoRI")) (body_enzyme data)).
  destruct (digest_and_render_proceeds (normalized_sequence again) _ v Hok)
    as [(img' & _ & _ & ->)|(Hraise & _)].
  - eexists _, _. split; [done|]. rewrite Hbody, Hnorm.
    cbn [dna_sequence fragments enzyme_used]. done.
  - rewrite Hbody in Hcanvas. cbn [fragments enzyme_used dna_sequence] in Hcanvas.
    rewrite Hnorm in Hraise. unfold requested_enzymes in Hcanvas. congruence.
Qed.

Lemma success_sequence_posted_again_witness :
  ∃ body w' body' v',
    simulate_fingerprint two_known_enzymes quiet_world
    = (Returns (Json200 body), w') ∧
    simulate_fingerprint
      (mkRequest (Some (dna_sequence body)) (body_enzyme two_known_enzymes)
                 None) w'
    = (Returns (Json200 body'), v') ∧
    dna_sequence body' = dna_sequence body ∧
    fragments body' = fragments body ∧
    enzyme_used body' = enzyme_used body.
Proof.
  run_example two_known_enzymes.
  destruct (success_sequence_posted_again two_known_enzymes quiet_world w' w'
              body None Hrun) as (body' & v' & H).
  - destruct (simulate_fingerprint_success two_known_enzymes quiet_world w'
                body Hrun) as (_ & Hposted & _).
    destruct Hposted as [Heq _]; [discriminate|].
    rewrite Heq. discriminate.
  - exists body, w', body', v'. exact (conj eq_refl H).
Defined.

Lemma letter_accepted (c : ascii) :
  bool_decide (c ∈ py "ATGCatgc ")
  = if decide (upper_char c = " "%char) then true
    else bool_decide (upper_char c ∈ py "ATGC").
Proof. destruct c as [[] [] [] [] [] [] [] []]; vm_compute; reflexivity. Qed.

(** X24: a posted sequence gets past the sequence check exactly when each
    of its characters is one of A, T, G, C, a, t, g, c or a space. *)
Theorem sequence_accepted_iff (raw : str) (enzyme : option enzyme_arg)
    (len : option Z) :
  sequence_accepted (mkRequest (Some raw) enzyme len) ↔
  Forall (λ c, c ∈ py "ATGCatgc ") raw.
Proof.
  unfold sequence_accepted, normalized_sequence.
  change (default [] (body_dna_sequence (mkRequest (Some raw) enzyme len)))
    with raw.
  induction raw as [|c raw IH]; [split; [constructor|done]|].
  unfold upper, strip_spaces in *. rewrite fmap_cons, filter_cons.
  rewrite Forall_cons, <- IH.
  rewrite <- (bool_decide_eq_true (c ∈ py "ATGCatgc ")), letter_accepted.
  destruct (decide (upper_char c = " "%char)) as [Hsp|Hsp].
  - rewrite decide_False by (by intros ?). tauto.
  - rewrite decide_True by done.
    change (all_ATGC (?x :: ?l)) with (bool_decide (x ∈ py "ATGC") && all_ATGC l).
    rewrite andb_true_iff. tauto.
Qed.

(** X25: an empty list of enzymes is not an error: a request with it that
    gets past the sequence check succeeds, names no enzyme, and has the whole
    sequence as its only fragment (no fragment when the sequence is empty). *)
Theorem no_enzymes_requested (data : Request) (w : World) :
  body_enzyme data = Some (Many []) →
  sequence_accepted data →
  ∃ body w',
    simulate_fingerprint data w = (Returns (Json200 body), w') ∧
    enzyme_used body = [] ∧
    fragments body
    = if decide (dna_sequence body = []) then [] else [dna_sequence body].
Proof.
  intros Hnone Hseq.
  destruct (simulate_fingerprint_outcome data w)
    as [[Hno _]|(_ & dna & w1 & -> & _)];
    [unfold sequence_accepted in Hseq; congruence|].
  rewrite Hnone.
  change (default (One (py "EcoRI")) (Some (Many []))) with (Many []).
  assert (cut_dna dna (Many [])
          = if decide (dna = []) then [] else [dna]) as Hcut.
  { unfold cut_dna, fragments_in_order.
    rewrite (cut_positions_none dna (Many [])), fragments_of_no_cuts.
    - by case_decide.
    - intros e r He. by apply elem_of_nil in He. }
  destruct (digest_and_render_proceeds dna (Many []) w1 eq_refl)
    as [(img & _ & _ & ->)|(_ & Hmany & _)].
  - eexists _, _. split; [done|].
    cbn [enzyme_used fragments dna_sequence as_list]. by split.
  - cbn [as_list] in Hmany. rewrite Hcut in Hmany.
    case_decide; simpl in Hmany; lia.
Qed.

Lemma no_enzymes_requested_witness :
  ∃ body w',
    simulate_fingerprint (mkRequest (Some (py "acgt")) (Some (Many [])) None)
      quiet_world
    = (Returns (Json200 body), w') ∧
    enzyme_used body = [] ∧
    fragments body
    = if decide (dna_sequence body = []) then [] else [dna_sequence body].
Proof.
  apply (no_enzymes_requested
           (mkRequest (Some (py "acgt")) (Some (Many [])) None) quiet_world);
    reflexivity.
Defined.

Lemma strip_only_spaces (raw : str) :
  Forall (λ c, c = " "%char) raw → strip_spaces (upper raw) = [].
Proof.
  unfold strip_spaces, upper. induction 1 as [|c raw -> _ IH]; [done|].
  rewrite fmap_cons, filter_cons_False; [done|]. by intros [].
Qed.

(** X26: a posted sequence of nothing but spaces counts as no sequence: the
    handler generates one of the requested length (100 by default) and, when
    the enzymes are all in the table and the length is at most 53,687,088,
    answers with a success body for it. *)
Theorem blank_sequence_is_generated (raw : str) (enzyme : option enzyme_arg)
    (len : option Z) (w : World) :
  Forall (λ c, c = " "%char) raw →
  invalid_enzymes (requested_enzymes (mkRequest (Some raw) enzyme len)) = [] →
  (default 100 len ≤ 53687088)%Z →
  ∃ body w',
    simulate_fingerprint (mkRequest (Some raw) enzyme len) w
    = (Returns (Json200 body), w') ∧
    Z.of_nat (length (dna_sequence body)) = Z.max 0 (default 100%Z len) ∧
    CallGenerate (default 100%Z len) ∈ calls w'.
Proof.
  intros Hblank Hok Hlen. set (data := mkRequest (Some raw) enzyme len) in *.
  assert (normalized_sequence data = []) as Hnil
    by (by apply strip_only_spaces).
  unfold simulate_fingerprint. cbv zeta. rewrite Hnil.
  rewrite decide_True by done. run. unfold log. cbv beta iota.
  set (w1 := mkWorld _ _ _ _ _).
  destruct (generate_dna_sequence_full (default 100%Z (body_length data)) w1)
    as (s & k & -> & Hs & _).
  change (body_length data) with len in *.
  destruct (digest_and_render_proceeds s _ (with_cursor w1 k) Hok)
    as [(img & _ & _ & ->)|(_ & Hmany & _)].
  - eexists _, _. split; [done|]. cbn [dna_sequence calls with_cursor].
    split; [rewrite Hs; lia|].
    subst w1. cbn [calls]. set_solver.
  - pose proof (cut_dna_count_le s
                  (Many (as_list (default (One (py "EcoRI"))
                                    (body_enzyme data))))) as Hle.
    lia.
Qed.

Lemma blank_sequence_is_generated_witness :
  ∃ body w',
    simulate_fingerprint (mkRequest (Some (py "   ")) None (Some 3%Z))
      quiet_world
    = (Returns (Json200 body), w') ∧
    Z.of_nat (length (dna_sequence body)) = Z.max 0 (default 100%Z (Some 3%Z)) ∧
    CallGenerate (default 100%Z (Some 3%Z)) ∈ calls w'.
Proof.
  apply (blank_sequence_is_generated (py "   ") None (Some 3%Z) quiet_world).
  - repeat constructor.
  - reflexivity.
  - simpl. lia.
Defined.

(** ** Very long digests *)

Lemma length_concat_replicate (n : nat) (r : str) :
  length (concat (replicate n r)) = n * length r.
Proof.
  induction n as [|n IH]; [done|].
  cbn [replicate concat]. rewrite length_app, IH. lia.
Qed.

Lemma all_ATGC_concat_replicate (n : nat) (r : str) :
  all_ATGC r = true → all_ATGC (concat (replicate n r)) = true.
Proof.
  intros Hr. induction n as [|n IH]; [done|].
  cbn [replicate concat]. by rewrite all_ATGC_app, Hr, IH.
Qed.

(** In a run of [n] EcoRI sites a site ends at every multiple of 6. *)
Lemma periodic_cut (n j : nat) :
  1 ≤ j ≤ n →
  j * 6 ∈ cut_positions (concat (replicate n (py "GAATTC")))
             (Many [py "EcoRI"]).
Proof.
  intros Hj. apply elem_of_cut_positions_site.
  exists (py "EcoRI"), (py "GAATTC").
  split; [left|]. split; [reflexivity|]. split; [discriminate|].
  apply site_cuts_occurrence; [discriminate|].
  exists (concat (replicate (j - 1) (py "GAATTC"))),
         (concat (replicate (n - j) (py "GAATTC"))).
  split.
  - replace n with ((j - 1) + S (n - j)) at 1 by lia.
    rewrite replicate_add, concat_app. done.
  - rewrite length_concat_replicate.
    change (length (py "GAATTC")) with 6. lia.
Qed.

Lemma periodic_fragment_count (n : nat) :
  n ≤ length (cut_dna (concat (replicate n (py "GAATTC"))) (Many [py "EcoRI"])).
Proof.
  destruct n as [|n]; [lia|].
  set (S := concat (replicate (S n) (py "GAATTC"))).
  assert (length S = (n + 1) * 6) as Hlen.
  { unfold S. rewrite length_concat_replicate.
    change (length (py "GAATTC")) with 6. lia. }
  rewrite cut_dna_count.
  rewrite decide_False by (intros HS; rewrite HS in Hlen; simpl in Hlen; lia).
  assert (length ((λ j, j * 6) <$> seq 1 n)
          ≤ length (filter (λ p, p < length S)
                      (cut_positions S (Many [py "EcoRI"])))) as Hsub.
  { apply submseteq_length, NoDup_submseteq.
    - apply NoDup_fmap_2; [intros a b ?; lia|apply NoDup_seq].
    - intros p (j & -> & Hj%elem_of_seq)%list_elem_of_fmap.
      apply list_elem_of_filter. split; [lia|].
      apply periodic_cut. lia. }
  rewrite length_fmap, length_seq in Hsub. lia.
Qed.

(** From 53,687,090 fragments on, the upper corner of a band is already
    beyond the range, whatever the heights. *)
Lemma gel_canvas_overflow_count (fragments enzymes : list str)
    (ladder : list Z) :
  Forall (λ f, f ≠ []) fragments →
  (53687089 < Z.of_nat (length fragments))%Z →
  gel_canvas fragments enzymes ladder = Raises cv2_error.
Proof.
  intros Hne Hcount.
  destruct (lookup_lt_is_Some_2 fragments (Z.to_nat 53687089)) as [frag Hk];
    [lia|].
  apply (gel_canvas_overflow _ _ _ (Z.to_nat 53687089) frag); [|exact Hk|].
  - apply max_list_lengths_pos. exists frag.
    split; [by eapply list_elem_of_lookup_2|].
    eapply Forall_forall in Hne; [exact Hne|by eapply list_elem_of_lookup_2].
  - pose proof (band_height_min (max_list (length <$> fragments)) frag).
    unfold band_row, INT_MAX. lia.
Qed.

Lemma posted_normal_sequence (raw : str) (enzyme : option enzyme_arg)
    (len : option Z) (w : World) :
  all_ATGC raw = true → raw ≠ [] →
  sequence_accepted (mkRequest (Some raw) enzyme len) ∧
  simulate_fingerprint (mkRequest (Some raw) enzyme len) w
  = digest_and_render raw (default (One (py "EcoRI")) enzyme) w.
Proof.
  intros Hraw Hne.
  assert (normalized_sequence (mkRequest (Some raw) enzyme len) = raw) as Hnorm
    by (by apply normalized_fixed_point).
  split; [unfold sequence_accepted; by rewrite Hnorm|].
  destruct (simulate_fingerprint_outcome (mkRequest (Some raw) enzyme len) w)
    as [[Hno _]|(_ & dna & w1 & -> & _ & _ & _ & Hposted & _)];
    [congruence|].
  destruct Hposted as [-> ->]; [congruence|]. by rewrite Hnorm.
Qed.

Lemma long_digest_fails (n : nat) (w : World) :
  (53687089 < Z.of_nat n)%Z →
  sequence_accepted
    (mkRequest (Some (concat (replicate n (py "GAATTC")))) None None) ∧
  (simulate_fingerprint
     (mkRequest (Some (concat (replicate n (py "GAATTC")))) None None) w).1
  = Raises cv2_error.
Proof.
  intros Hn.
  destruct (posted_normal_sequence (concat (replicate n (py "GAATTC")))
              None None w) as [Hacc ->].
  - by apply all_ATGC_concat_replicate.
  - intros Hnil. apply (f_equal length) in Hnil.
    rewrite length_concat_replicate in Hnil.
    change (length (py "GAATTC")) with 6 in Hnil.
    change (length (@nil ascii)) with 0 in Hnil. lia.
  - split; [exact Hacc|].
    change (default (One (py "EcoRI")) None) with (One (py "EcoRI")).
    destruct (digest_and_render_proceeds
                (concat (replicate n (py "GAATTC"))) (One (py "EcoRI")) w
                eq_refl) as [(img & Hcanvas & _)|(_ & _ & ->)];
      [|reflexivity].
    rewrite gel_canvas_overflow_count in Hcanvas.
    + discriminate Hcanvas.
    + apply cut_dna_nonempty_fragments.
    + pose proof (periodic_fragment_count n). cbn [as_list]. lia.
Qed.

(** C9 fails as stated in two ways.  When the sequence is rejected the
    field is absent, yet no success body, and so no [enzyme_used], comes
    back.  And a posted run of 53,687,090 EcoRI sites gets past the sequence
    check, but its digest cannot be drawn: the handler ends in the exception
    of cv2 and gives no answer. *)
Lemma default_enzyme_no_answer :
  (body_enzyme bad_sequence_no_enzyme = None ∧
   simulate_fingerprint bad_sequence_no_enzyme quiet_world
   = (Returns InvalidSequence, quiet_world)) ∧
  (body_enzyme long_digest_request = None ∧
   sequence_accepted long_digest_request ∧
   (simulate_fingerprint long_digest_request quiet_world).1
   = Raises cv2_error).
Proof.
  split; [split; reflexivity|].
  unfold long_digest_request. split; [reflexivity|].
  apply long_digest_fails. lia.
Qed.
